(** * checkly: a client for the Checkly REST API

    A shallow embedding of [checkly.go] and [types.go].  The client is a thin
    layer over the Go standard library, so the development has two parts:

    - a model of the library calls the client makes ([encoding/json], [time],
      [net/http], [io/ioutil], [fmt]); what the library computes from the
      network, the tracing sink and the URL parser is left open and comes in
      through the [Platform] record, the [http.Client] and the [io.Writer];
    - the client itself: [MakeAPICall], [dumpResponse], [Create], [Update],
      [Delete] and [Get], written in a state monad over the [Client] struct the
      methods receive by pointer and the two effects they have on the outside
      (HTTP requests sent, lines written to the debug sink).

    Go strings and byte slices are [string]s (sequences of bytes); Go's [int]
    and [int64] are [Z], taken as 64-bit. *)

From Stdlib Require Import ZArith List String Ascii Bool Lia DecimalString.
Import ListNotations.

Set Warnings "-register-all".

Open Scope string_scope.
Open Scope Z_scope.

(* ================================================================= *)
(** ** Errors and results *)

(** Go [error] values.  [fmt.Errorf] keeps its format string and operands, so
    that what an error carries can be read back from it. *)
Inductive error : Type :=
| errors_New (text : string)
| io_EOF
| io_ErrUnexpectedEOF
| json_SyntaxError (msg : string)
| json_UnmarshalTypeError (Value GoType Struct Field : string)
| json_MarshalerError (GoType : string) (Err : error)
| time_ParseError (value : string)
| fmt_Errorf (format : string) (a : list operand)
with operand : Type :=
| OInt (n : Z)
| OString (s : string)
| OError (e : error).

(** A call that returns [(T, error)] with the value meaningful only when the
    error is nil. *)
Inductive result (T : Type) : Type :=
| Ok (x : T)
| Err (e : error).
Arguments Ok {T} x.
Arguments Err {T} e.

Definition is_ok {T} (r : result T) : bool :=
  match r with Ok _ => true | Err _ => false end.

(* ================================================================= *)
(** ** Bytes and strings *)

Definition byte (c : ascii) : Z := Z.of_N (N_of_ascii c).
Definition chr (n : Z) : ascii := ascii_of_N (Z.to_N n).

Definition dquote : ascii := "034"%char.
Definition backslash : ascii := "\"%char.

Definition str (c : ascii) : string := String c EmptyString.

Definition between (lo hi : Z) (c : ascii) : bool :=
  (lo <=? byte c) && (byte c <=? hi).

Definition isDigit (c : ascii) : bool := between 48 57 c.

Fixpoint forallb_string (p : ascii -> bool) (s : string) : bool :=
  match s with
  | EmptyString => true
  | String c r => p c && forallb_string p r
  end.

Fixpoint take (n : nat) (s : string) : string :=
  match n, s with
  | S k, String c r => String c (take k r)
  | _, _ => EmptyString
  end.

Fixpoint drop (n : nat) (s : string) : string :=
  match n, s with
  | S k, String _ r => drop k r
  | _, _ => s
  end.

(** [strconv.Itoa] *)
Definition itoa (n : Z) : string := NilZero.string_of_int (Z.to_int n).

(** The value of a string of decimal digits. *)
Fixpoint digits_value (acc : Z) (s : string) : Z :=
  match s with
  | EmptyString => acc
  | String c r => digits_value (10 * acc + (byte c - 48)) r
  end.

Definition hexdigit (n : Z) : ascii :=
  if n <? 10 then chr (48 + n) else chr (87 + n).

Definition hexval (c : ascii) : option Z :=
  if between 48 57 c then Some (byte c - 48)
  else if between 97 102 c then Some (byte c - 87)
  else if between 65 70 c then Some (byte c - 55)
  else None.

Definition sub (s : string) (from to : nat) : string :=
  take (to - from) (drop from s).

Definition at_is (s : string) (i : nat) (c : ascii) : bool :=
  match String.get i s with
  | Some d => Ascii.eqb c d
  | None => false
  end.

Fixpoint span_digits (s : string) : string * string :=
  match s with
  | String c r =>
      if isDigit c then let (d, t) := span_digits r in (String c d, t)
      else (EmptyString, s)
  | EmptyString => (EmptyString, EmptyString)
  end.

(* ================================================================= *)
(** ** [unicode/utf8] and [unicode/utf16] *)

Module utf8.

Definition cont (c : ascii) : bool := between 128 191 c.

(** [utf8.DecodeRune]: the length of the well-formed sequence that starts
    the string, [0] when there is none (Go then returns [RuneError] with size
    1). *)
Definition size (s : string) : nat :=
  match s with
  | String a (String b r) =>
      if between 194 223 a then (if cont b then 2 else 0)%nat
      else
        match r with
        | String c r' =>
            let second3 :=
              if byte a =? 224 then between 160 191 b
              else if byte a =? 237 then between 128 159 b
              else between 225 239 a && cont b in
            if between 224 239 a then (if second3 && cont c then 3 else 0)%nat
            else
              match r' with
              | String d _ =>
                  let second4 :=
                    if byte a =? 240 then between 144 191 b
                    else if byte a =? 244 then between 128 143 b
                    else between 241 243 a && cont b in
                  if between 240 244 a && second4 && cont c && cont d
                  then 4%nat else 0%nat
              | EmptyString => 0%nat
              end
        | EmptyString => 0%nat
        end
  | _ => 0%nat
  end.

(** [utf8.EncodeRune]; surrogates and values past U+10FFFF become U+FFFD. *)
Definition RuneError : Z := 65533.

Definition EncodeRune (r : Z) : string :=
  let r := if (r <? 0) || (1114111 <? r) || ((55296 <=? r) && (r <=? 57343))
           then RuneError else r in
  if r <? 128 then str (chr r)
  else if r <? 2048 then
    String (chr (192 + r / 64)) (str (chr (128 + r mod 64)))
  else if r <? 65536 then
    String (chr (224 + r / 4096))
      (String (chr (128 + (r / 64) mod 64)) (str (chr (128 + r mod 64))))
  else
    String (chr (240 + r / 262144))
      (String (chr (128 + (r / 4096) mod 64))
         (String (chr (128 + (r / 64) mod 64)) (str (chr (128 + r mod 64))))).

End utf8.

Module utf16.

Definition IsSurrogate (r : Z) : bool := (55296 <=? r) && (r <? 57344).

(** [utf16.DecodeRune]: the code point of a surrogate pair, U+FFFD when the
    two are no pair. *)
Definition DecodeRune (r1 r2 : Z) : Z :=
  if (55296 <=? r1) && (r1 <? 56320) && (56320 <=? r2) && (r2 <? 57344)
  then (r1 - 55296) * 1024 + (r2 - 56320) + 65536
  else utf8.RuneError.

End utf16.

(* ================================================================= *)
(** ** [time] *)

Module time.

(** A [time.Time] by what its formatting shows: the civil date and clock
    reading in the value's own zone and that zone's offset, in seconds east of
    UTC. *)
Record Time : Type := mkTime {
  Year : Z; Month : Z; Day : Z;
  Hour : Z; Minute : Z; Second : Z; Nanosecond : Z;
  Offset : Z
}.

(** [time.Time{}]: January 1, year 1, 00:00:00 UTC. *)
Definition zero : Time := mkTime 1 1 1 0 0 0 0 0.

Fixpoint zeros (n : nat) : string :=
  match n with O => EmptyString | S k => String "0"%char (zeros k) end.

(** [appendInt]: decimal, zero-padded to [width], sign first. *)
Definition appendInt (x : Z) (width : nat) : string :=
  let d := itoa (Z.abs x) in
  (if x <? 0 then "-" else "") ++ zeros (width - String.length d) ++ d.

(** The fraction of layout [.999999999]: trailing zeros dropped, nothing at
    all for a whole second. *)
Fixpoint trim_nano (n : nat) (nanosec : Z) : string :=
  match n with
  | O => EmptyString
  | S k => if nanosec mod 10 =? 0 then trim_nano k (nanosec / 10)
           else "." ++ appendInt nanosec n
  end.

(** The zone of layout [Z07:00]. *)
Definition formatZone (offset : Z) : string :=
  if offset =? 0 then "Z"
  else
    let zone := Z.quot offset 60 in
    (if zone <? 0 then "-" else "+")
      ++ appendInt (Z.abs zone / 60) 2 ++ ":" ++ appendInt (Z.abs zone mod 60) 2.

(** [t.Format(time.RFC3339Nano)] *)
Definition formatRFC3339Nano (t : Time) : string :=
  appendInt (Year t) 4 ++ "-" ++ appendInt (Month t) 2 ++ "-"
    ++ appendInt (Day t) 2 ++ "T" ++ appendInt (Hour t) 2 ++ ":"
    ++ appendInt (Minute t) 2 ++ ":" ++ appendInt (Second t) 2
    ++ trim_nano 9 (Nanosecond t) ++ formatZone (Offset t).

(** [Time.MarshalJSON]: the quoted RFC 3339 text; refused when the year does
    not print in four digits or the zone hour passes 23. *)
Definition MarshalJSON (t : Time) : result string :=
  if (Year t <? 0) || (9999 <? Year t)
  then Err (errors_New "Time.MarshalJSON: year outside of range [0,9999]")
  else if 24 <=? Z.abs (Z.quot (Offset t) 60) / 60
  then Err (errors_New "Time.MarshalJSON: timezone hour outside of range [0,23]")
  else Ok (str dquote ++ formatRFC3339Nano t ++ str dquote).

Definition isLeap (year : Z) : bool :=
  (year mod 4 =? 0) && (negb (year mod 100 =? 0) || (year mod 400 =? 0)).

Definition daysIn (month year : Z) : Z :=
  if month =? 2 then (if isLeap year then 29 else 28)
  else if (month =? 4) || (month =? 6) || (month =? 9) || (month =? 11)
  then 30 else 31.

(** [parseUint] of [parseRFC3339]: digits only, within [lo, hi]. *)
Definition parseUint (s : string) (lo hi : Z) : option Z :=
  if forallb_string isDigit s
  then let x := digits_value 0 s in
       if (lo <=? x) && (x <=? hi) then Some x else None
  else None.

(** [parseNanoseconds]: the digits after the point, read as a fraction of a
    second; digits past the ninth are dropped. *)
Definition parseNanoseconds (digits : string) : Z :=
  let d := take 9 digits in
  digits_value 0 d * 10 ^ Z.of_nat (9 - String.length d).

(** The zone of an RFC 3339 timestamp: [Z] or [+hh:mm] / [-hh:mm]. *)
Definition parseZone (s : string) : option Z :=
  if String.eqb s "Z" then Some 0
  else if negb (Nat.eqb (String.length s) 6) then None
  else
    match parseUint (sub s 1 3) 0 23, parseUint (sub s 4 6) 0 59 with
    | Some hr, Some mm =>
        if (at_is s 0 "+" || at_is s 0 "-") && at_is s 3 ":"
        then Some ((if at_is s 0 "-" then -1 else 1) * ((hr * 60 + mm) * 60))
        else None
    | _, _ => None
    end.

(** [parseRFC3339]: the strict reader of
    [2006-01-02T15:04:05.999999999Z07:00]. *)
Definition parseRFC3339 (s : string) : option Time :=
  if (String.length s <? 19)%nat then None
  else
    match parseUint (sub s 0 4) 0 9999, parseUint (sub s 5 7) 1 12 with
    | Some year, Some month =>
        match parseUint (sub s 8 10) 1 (daysIn month year),
              parseUint (sub s 11 13) 0 23,
              parseUint (sub s 14 16) 0 59,
              parseUint (sub s 17 19) 0 59 with
        | Some day, Some hour, Some min, Some sec =>
            if at_is s 4 "-" && at_is s 7 "-" && at_is s 10 "T"
               && at_is s 13 ":" && at_is s 16 ":"
            then
              let rest := drop 19 s in
              let (nsec, rest) :=
                match rest with
                | String "." (String d r) =>
                    if isDigit d
                    then let (ds, t) := span_digits (String d r) in
                         (parseNanoseconds ds, t)
                    else (0, rest)
                | _ => (0, rest)
                end in
              match parseZone rest with
              | Some off => Some (mkTime year month day hour min sec nsec off)
              | None => None
              end
            else None
        | _, _, _, _ => None
        end
    | _, _ => None
    end.

(** [Time.UnmarshalJSON] on the raw bytes of a JSON value: [null] leaves the
    time alone, anything but a JSON string is refused, and the text between
    the quotes is read by [parseRFC3339]; what that strict reader refuses goes
    to the layout-driven [time.Parse(time.RFC3339, _)], which is given as
    [layoutParse]. *)
Definition UnmarshalJSON (layoutParse : string -> result Time)
    (data : string) (t : Time) : result Time :=
  if String.eqb data "null" then Ok t
  else if (String.length data <? 2)%nat
          || negb (at_is data 0 dquote)
          || negb (at_is data (String.length data - 1) dquote)
  then Err (errors_New "Time.UnmarshalJSON: input is not a JSON string")
  else
    let text := sub data 1 (String.length data - 1) in
    match parseRFC3339 text with
    | Some t' => Ok t'
    | None => layoutParse text
    end.

End time.

(* ================================================================= *)
(** ** [encoding/json] *)

Module json.

(** *** Syntax *)

(** A JSON text as the scanner delimits it.  Number and string literals are
    kept as written (a string literal is the text between its quotes, escapes
    included): the decoder hands raw bytes to [UnmarshalJSON] methods and
    unquotes strings only when it stores them. *)
Inductive value : Type :=
| JNull
| JBool (b : bool)
| JNumber (lit : string)
| JString (lit : string)
| JArray (elems : list value)
| JObject (members : list (string * value)).

Definition isSpace (c : ascii) : bool :=
  (byte c =? 32) || (byte c =? 9) || (byte c =? 13) || (byte c =? 10).

Fixpoint skipSpace (s : string) : string :=
  match s with
  | String c r => if isSpace c then skipSpace r else s
  | EmptyString => s
  end.

(** What the scanner answers where the text does not continue as it must:
    [io.ErrUnexpectedEOF] when the text has ended, a syntax error otherwise. *)
Definition stuck {T} (s : string) (context : string) : result T :=
  match s with
  | EmptyString => Err io_ErrUnexpectedEOF
  | String _ _ => Err (json_SyntaxError ("invalid character " ++ context))
  end.

(** States of the scanner inside a string literal. *)
Inductive strState : Type :=
| InString
| InStringEsc
| InStringEscU (remaining : nat).

(** The scanner from just after an opening quote: the literal and the text
    after the closing quote. *)
Fixpoint scan_string (st : strState) (s : string) : result (string * string) :=
  match s with
  | EmptyString => Err io_ErrUnexpectedEOF
  | String c r =>
      let keep st' :=
        match scan_string st' r with
        | Ok (lit, rest) => Ok (String c lit, rest)
        | Err e => Err e
        end in
      match st with
      | InString =>
          if Ascii.eqb c dquote then Ok (EmptyString, r)
          else if Ascii.eqb c backslash then keep InStringEsc
          else if byte c <? 32 then stuck s "in string literal"
          else keep InString
      | InStringEsc =>
          if Ascii.eqb c "u" then keep (InStringEscU 4)
          else if existsb (Ascii.eqb c)
                    ["b"; "f"; "n"; "r"; "t"; backslash; "/"; dquote]%char
          then keep InString
          else stuck s "in string escape code"
      | InStringEscU n =>
          match hexval c with
          | Some _ => keep (match n with
                            | S (S k) => InStringEscU (S k)
                            | _ => InString
                            end)
          | None => stuck s "in \u hexadecimal character escape"
          end
      end
  end.

(** A run of digits that may not be empty. *)
Definition digits1 (s : string) (context : string) : result (string * string) :=
  match span_digits s with
  | (EmptyString, t) => stuck t context
  | (ds, t) => Ok (ds, t)
  end.

(** The scanner on a number: [-]? int [frac]? [exp]?. *)
Definition scan_number (s : string) : result (string * string) :=
  let (sign, s1) :=
    match s with
    | String "-" r => ("-", r)
    | _ => ("", s)
    end in
  let int_part :=
    match s1 with
    | String "0" r => Ok ("0", r)
    | _ => digits1 s1 "in numeric literal"
    end in
  match int_part with
  | Err e => Err e
  | Ok (int, s2) =>
      let frac_part :=
        match s2 with
        | String "." r =>
            match digits1 r "after decimal point in numeric literal" with
            | Ok (ds, t) => Ok ("." ++ ds, t)
            | Err e => Err e
            end
        | _ => Ok ("", s2)
        end in
      match frac_part with
      | Err e => Err e
      | Ok (frac, s3) =>
          let exponent (e : ascii) (r : string) :=
            let (esign, r1) :=
              match r with
              | String "+" t => ("+", t)
              | String "-" t => ("-", t)
              | _ => ("", r)
              end in
            match digits1 r1 "in exponent of numeric literal" with
            | Ok (ds, t) => Ok (sign ++ int ++ frac ++ str e ++ esign ++ ds, t)
            | Err err => Err err
            end in
          match s3 with
          | String "e" r => exponent "e"%char r
          | String "E" r => exponent "E"%char r
          | _ => Ok (sign ++ int ++ frac, s3)
          end
      end
  end.

(** The scanner on [true], [false] and [null], first letter already seen. *)
Fixpoint scan_literal (word : string) (s : string) : result string :=
  match word with
  | EmptyString => Ok s
  | String w ws =>
      match s with
      | String c r => if Ascii.eqb c w then scan_literal ws r
                      else stuck s "in literal"
      | EmptyString => Err io_ErrUnexpectedEOF
      end
  end.

(** The scanner refuses values nested deeper than this. *)
Definition maxNestingDepth : Z := 10000.

(** The scanner on one value.  [fuel] bounds the calls (of two calls in a row one
    consumes a byte of the text, so twice its length is enough);
    [depth] counts the arrays and objects entered. *)
Fixpoint scan_value (fuel : nat) (depth : Z) (s : string)
  : result (value * string) :=
  match fuel with
  | O => Err io_ErrUnexpectedEOF
  | S fuel' =>
      let s := skipSpace s in
      match s with
      | EmptyString => Err io_ErrUnexpectedEOF
      | String c r =>
          let literal word v :=
            match scan_literal word r with
            | Ok rest => Ok (v, rest)
            | Err e => Err e
            end in
          if Ascii.eqb c "{" then
            if maxNestingDepth <? depth + 1
            then Err (json_SyntaxError "exceeded max depth")
            else
              match skipSpace r with
              | String "}" rest => Ok (JObject [], rest)
              | r1 => scan_members fuel' (depth + 1) r1
              end
          else if Ascii.eqb c "[" then
            if maxNestingDepth <? depth + 1
            then Err (json_SyntaxError "exceeded max depth")
            else
              match skipSpace r with
              | String "]" rest => Ok (JArray [], rest)
              | r1 => scan_elems fuel' (depth + 1) r1
              end
          else if Ascii.eqb c dquote then
            match scan_string InString r with
            | Ok (lit, rest) => Ok (JString lit, rest)
            | Err e => Err e
            end
          else if Ascii.eqb c "-" || isDigit c then
            match scan_number s with
            | Ok (lit, rest) => Ok (JNumber lit, rest)
            | Err e => Err e
            end
          else if Ascii.eqb c "t" then literal "rue" (JBool true)
          else if Ascii.eqb c "f" then literal "alse" (JBool false)
          else if Ascii.eqb c "n" then literal "ull" JNull
          else stuck s "looking for beginning of value"
      end
  end

(** The elements of an array, from its first element to the closing
    bracket. *)
with scan_elems (fuel : nat) (depth : Z) (s : string)
  : result (value * string) :=
  match fuel with
  | O => Err io_ErrUnexpectedEOF
  | S fuel' =>
      match scan_value fuel' depth s with
      | Err e => Err e
      | Ok (v, rest) =>
          match skipSpace rest with
          | String "," r =>
              match scan_elems fuel' depth r with
              | Ok (JArray vs, rest') => Ok (JArray (v :: vs), rest')
              | Ok other => Ok other
              | Err e => Err e
              end
          | String "]" r => Ok (JArray [v], r)
          | t => stuck t "after array element"
          end
      end
  end

(** The members of an object, from its first key to the closing brace. *)
with scan_members (fuel : nat) (depth : Z) (s : string)
  : result (value * string) :=
  match fuel with
  | O => Err io_ErrUnexpectedEOF
  | S fuel' =>
      match skipSpace s with
      | String c r =>
          if Ascii.eqb c dquote then
            match scan_string InString r with
            | Err e => Err e
            | Ok (key, rest) =>
                match skipSpace rest with
                | String ":" r1 =>
                    match scan_value fuel' depth r1 with
                    | Err e => Err e
                    | Ok (v, rest1) =>
                        match skipSpace rest1 with
                        | String "," r2 =>
                            match scan_members fuel' depth r2 with
                            | Ok (JObject ms, rest') =>
                                Ok (JObject ((key, v) :: ms), rest')
                            | Ok other => Ok other
                            | Err e => Err e
                            end
                        | String "}" r2 => Ok (JObject [(key, v)], r2)
                        | t => stuck t "after object key:value pair"
                        end
                    end
                | t => stuck t "after object key"
                end
            end
          else stuck (String c r) "looking for beginning of object key string"
      | EmptyString => Err io_ErrUnexpectedEOF
      end
  end.

(** What [Decoder.Decode] reads from a fresh stream: the first JSON value of
    the text.  [io.EOF] when there is nothing but white space; whatever
    follows the value stays in the stream unread. *)
Definition readValue (text : string) : result value :=
  match skipSpace text with
  | EmptyString => Err io_EOF
  | s =>
      match scan_value (2 * String.length s + 2) 0 s with
      | Ok (v, _) => Ok v
      | Err e => Err e
      end
  end.

(** *** String literals *)

(** [getu4]: the code unit of a [\uXXXX] that starts the text. *)
Definition getu4 (s : string) : option Z :=
  match s with
  | String b (String u (String h1 (String h2 (String h3 (String h4 _))))) =>
      if Ascii.eqb b backslash && Ascii.eqb u "u" then
        match hexval h1, hexval h2, hexval h3, hexval h4 with
        | Some a, Some b, Some c, Some d => Some (((a * 16 + b) * 16 + c) * 16 + d)
        | _, _, _, _ => None
        end
      else None
  | _ => None
  end.

Definition unescape (e : ascii) : ascii :=
  if Ascii.eqb e "b" then chr 8
  else if Ascii.eqb e "f" then chr 12
  else if Ascii.eqb e "n" then chr 10
  else if Ascii.eqb e "r" then chr 13
  else if Ascii.eqb e "t" then chr 9
  else e.

(** [unquote]: the Go string a scanned literal stands for.  Escapes are
    resolved, surrogate pairs joined, and bytes that are not UTF-8 replaced
    by U+FFFD. *)
Fixpoint unquote_from (fuel : nat) (s : string) : string :=
  match fuel with
  | O => EmptyString
  | S fuel' =>
      match s with
      | EmptyString => EmptyString
      | String c r =>
          if Ascii.eqb c backslash then
            match r with
            | EmptyString => EmptyString
            | String e r' =>
                if Ascii.eqb e "u" then
                  match getu4 s with
                  | None => EmptyString
                  | Some rr =>
                      let rest := drop 6 s in
                      if utf16.IsSurrogate rr then
                        let dec := match getu4 rest with
                                   | Some rr1 => utf16.DecodeRune rr rr1
                                   | None => utf8.RuneError
                                   end in
                        if dec =? utf8.RuneError
                        then utf8.EncodeRune utf8.RuneError ++ unquote_from fuel' rest
                        else utf8.EncodeRune dec ++ unquote_from fuel' (drop 6 rest)
                      else utf8.EncodeRune rr ++ unquote_from fuel' rest
                  end
                else String (unescape e) (unquote_from fuel' r')
            end
          else if byte c <? 128 then String c (unquote_from fuel' r)
          else
            match utf8.size s with
            | O => utf8.EncodeRune utf8.RuneError ++ unquote_from fuel' r
            | n => take n s ++ unquote_from fuel' (drop n s)
            end
      end
  end.

Definition unquote (lit : string) : string :=
  unquote_from (String.length lit) lit.

(** The bytes the encoder copies as they are with HTML escaping on: printable
    ASCII but for the quote, the backslash, [<], [>] and [&]. *)
Definition htmlSafe (c : ascii) : bool :=
  between 32 127 c
  && negb (existsb (Ascii.eqb c) [dquote; backslash; "<"; ">"; "&"]%char).

Definition escape_byte (c : ascii) : string :=
  if Ascii.eqb c backslash || Ascii.eqb c dquote then String backslash (str c)
  else if byte c =? 8 then "\b"
  else if byte c =? 12 then "\f"
  else if byte c =? 10 then "\n"
  else if byte c =? 13 then "\r"
  else if byte c =? 9 then "\t"
  else "\u00" ++ str (hexdigit (byte c / 16)) ++ str (hexdigit (byte c mod 16)).

(** [appendString]: the literal the encoder writes for a Go string. *)
Fixpoint quote_from (fuel : nat) (s : string) : string :=
  match fuel with
  | O => EmptyString
  | S fuel' =>
      match s with
      | EmptyString => EmptyString
      | String c r =>
          if byte c <? 128 then
            (if htmlSafe c then str c else escape_byte c) ++ quote_from fuel' r
          else
            match utf8.size s with
            | O => "\ufffd" ++ quote_from fuel' r
            | n =>
                let seq := take n s in
                (if String.eqb seq (utf8.EncodeRune 8232) then "\u2028"
                 else if String.eqb seq (utf8.EncodeRune 8233) then "\u2029"
                 else seq) ++ quote_from fuel' (drop n s)
            end
      end
  end.

Definition quote (s : string) : string := quote_from (String.length s) s.

(** *** Writing *)

Fixpoint join (sep : string) (l : list string) : string :=
  match l with
  | [] => EmptyString
  | [x] => x
  | x :: r => x ++ sep ++ join sep r
  end.

(** The compact text of a value, as the encoder's buffer holds it. *)
Fixpoint encode (v : value) : string :=
  match v with
  | JNull => "null"
  | JBool true => "true"
  | JBool false => "false"
  | JNumber lit => lit
  | JString lit => str dquote ++ lit ++ str dquote
  | JArray vs => "[" ++ join "," (map encode vs) ++ "]"
  | JObject ms =>
      "{" ++ join ","
               (map (fun m => str dquote ++ fst m ++ str dquote ++ ":"
                                ++ encode (snd m)) ms)
          ++ "}"
  end.

(** *** Matching object keys with struct fields *)

(** [foldName] on a key that has been unquoted (so is UTF-8): ASCII letters
    to upper case; U+212A (Kelvin sign) and U+017F (long s), the only
    characters beyond ASCII that fold to ASCII letters, to [K] and [S]. *)
Fixpoint foldName (s : string) : string :=
  match s with
  | EmptyString => EmptyString
  | String c r =>
      if between 97 122 c then String (chr (byte c - 32)) (foldName r)
      else
        match r with
        | String c1 r1 =>
            if (byte c =? 197) && (byte c1 =? 191)
            then String "S" (foldName r1)
            else
              match r1 with
              | String c2 r2 =>
                  if (byte c =? 226) && (byte c1 =? 132) && (byte c2 =? 170)
                  then String "K" (foldName r2)
                  else String c (foldName r)
              | EmptyString => String c (foldName r)
              end
        | EmptyString => str c
        end
  end.
(** *** Go types, as the encoder and the decoder find them by reflection *)

Inductive gotype : Type :=
| string_t
| int_t
| int64_t
| bool_t
| Time_t
| slice_t (elem : gotype)
| struct_t (name : string) (fields : list (string * gotype)).

(** [reflect.Type.String] *)
Fixpoint type_name (t : gotype) : string :=
  match t with
  | string_t => "string"
  | int_t => "int"
  | int64_t => "int64"
  | bool_t => "bool"
  | Time_t => "time.Time"
  | slice_t e => "[]" ++ type_name e
  | struct_t n _ => "checkly." ++ n
  end.

(** The field an object key stands for: the one of that name, else the first
    whose name differs from the key by case only. *)
Definition resolve (names : list string) (key : string) : option string :=
  match find (String.eqb key) names with
  | Some n => Some n
  | None => find (fun n => String.eqb (foldName n) (foldName key)) names
  end.

Fixpoint lookup {A} (name : string) (l : list (string * A)) : option A :=
  match l with
  | [] => None
  | (n, a) :: r => if String.eqb n name then Some a else lookup name r
  end.

(** [strconv.ParseInt(lit, 10, 64)] on a number literal. *)
Definition parseInt (lit : string) : option Z :=
  let (neg, ds) :=
    match lit with
    | String "-" r => (true, r)
    | _ => (false, lit)
    end in
  if negb (String.eqb ds "") && forallb_string isDigit ds
  then let n := if neg then - digits_value 0 ds else digits_value 0 ds in
       if (- 2 ^ 63 <=? n) && (n <? 2 ^ 63) then Some n else None
  else None.

(** [d.saveError]: the first error is the one that stays. *)
Definition saveError (saved : option error) (e : error) : option error :=
  match saved with
  | Some _ => saved
  | None => Some e
  end.

Definition path (Field name : string) : string :=
  if String.eqb Field "" then name else Field ++ "." ++ name.

(** *** Encoding and decoding by type *)

(** What reflection gives the package for a Go type: its description, its
    zero value, whether [omitempty] drops a value, how a value is written and
    how a JSON value is stored over an existing one (a value of the wrong
    kind, which [check] reports, leaves it as it is). *)
Record codec (T : Type) : Type := mkCodec {
  gotype_of : gotype;
  zero : T;
  isEmptyValue : T -> bool;
  enc : T -> result value;
  dec : value -> T -> T
}.
Arguments mkCodec {T}.
Arguments gotype_of {T}.
Arguments zero {T}.
Arguments isEmptyValue {T}.
Arguments enc {T}.
Arguments dec {T}.

(** A struct field with its tag: the key, [omitempty], and the field's type
    and value. *)
Record field (S : Type) : Type := mkField {
  fname : string;
  omitEmpty : bool;
  ftype : gotype;
  fempty : S -> bool;
  fenc : S -> result value
}.
Arguments fname {S}.
Arguments omitEmpty {S}.
Arguments ftype {S}.
Arguments fempty {S}.
Arguments fenc {S}.

Section Decoding.

(** [time.Parse(time.RFC3339, _)], see [time.UnmarshalJSON]. *)
Variable layoutParse : string -> result time.Time.

(** The errors of [d.value]: a value of the wrong kind for where it goes is
    skipped and reported once decoding is over ([Ok] carries the error saved
    so far), an error of an [UnmarshalJSON] method ends decoding at once
    ([Err]).  [null] fits everywhere. *)
Fixpoint check (t : gotype) (Struct Field : string) (v : value)
    (saved : option error) {struct v} : result (option error) :=
  let mismatch what :=
    Ok (saveError saved
          (json_UnmarshalTypeError what (type_name t) Struct Field)) in
  match t with
  | Time_t =>
      match time.UnmarshalJSON layoutParse (encode v) time.zero with
      | Ok _ => Ok saved
      | Err e => Err e
      end
  | _ =>
      match v with
      | JNull => Ok saved
      | JBool _ =>
          match t with
          | bool_t => Ok saved
          | _ => mismatch "bool"
          end
      | JNumber lit =>
          match t with
          | int_t | int64_t =>
              match parseInt lit with
              | Some _ => Ok saved
              | None => mismatch ("number " ++ lit)
              end
          | _ => mismatch "number"
          end
      | JString _ =>
          match t with
          | string_t => Ok saved
          | _ => mismatch "string"
          end
      | JArray vs =>
          match t with
          | slice_t et =>
              (fix elems (vs : list value) (saved : option error) :=
                 match vs with
                 | [] => Ok saved
                 | x :: r =>
                     match check et Struct Field x saved with
                     | Ok saved' => elems r saved'
                     | Err e => Err e
                     end
                 end) vs saved
          | _ => mismatch "array"
          end
      | JObject ms =>
          match t with
          | struct_t name fields =>
              (fix members (ms : list (string * value)) (saved : option error) :=
                 match ms with
                 | [] => Ok saved
                 | (k, x) :: r =>
                     match resolve (map fst fields) (unquote k) with
                     | Some n =>
                         match lookup n fields with
                         | Some ft =>
                             match check ft name (path Field n) x saved with
                             | Ok saved' => members r saved'
                             | Err e => Err e
                             end
                         | None => members r saved
                         end
                     | None => members r saved
                     end
                 end) ms saved
          | _ => mismatch "object"
          end
      end
  end.

Definition string_ : codec string :=
  mkCodec string_t "" (fun s => String.eqb s "")
    (fun s => Ok (JString (quote s)))
    (fun v old => match v with JString lit => unquote lit | _ => old end).

Definition integer (t : gotype) : codec Z :=
  mkCodec t 0 (fun n => n =? 0)
    (fun n => Ok (JNumber (itoa n)))
    (fun v old =>
       match v with
       | JNumber lit => match parseInt lit with Some n => n | None => old end
       | _ => old
       end).

Definition int_ : codec Z := integer int_t.
Definition int64_ : codec Z := integer int64_t.

Definition bool_ : codec bool :=
  mkCodec bool_t false negb
    (fun b => Ok (JBool b))
    (fun v old => match v with JBool b => b | _ => old end).

(** [time.Time] writes and reads itself ([MarshalJSON], [UnmarshalJSON]); it
    is a struct, which [omitempty] never drops. *)
Definition Time_ : codec time.Time :=
  mkCodec Time_t time.zero (fun _ => false)
    (fun t =>
       match time.MarshalJSON t with
       | Ok b => Ok (JString (sub b 1 (String.length b - 1)))
       | Err e => Err (json_MarshalerError "time.Time" e)
       end)
    (fun v old =>
       match time.UnmarshalJSON layoutParse (encode v) old with
       | Ok t => t
       | Err _ => old
       end).

Fixpoint enc_elems {T} (c : codec T) (l : list T) : result (list value) :=
  match l with
  | [] => Ok []
  | x :: r =>
      match enc c x with
      | Err e => Err e
      | Ok v =>
          match enc_elems c r with
          | Err e => Err e
          | Ok vs => Ok (v :: vs)
          end
      end
  end.

(** The elements of an array go over those the slice already has, and over
    zero values past its length. *)
Fixpoint dec_elems {T} (c : codec T) (vs : list value) (old : list T) : list T :=
  match vs with
  | [] => []
  | v :: r => dec c v (hd (zero c) old) :: dec_elems c r (tl old)
  end.

(** A slice is [None] when nil.  A nil slice is written [null], and [null]
    read into a slice makes it nil. *)
Definition slice_ {T} (c : codec T) : codec (option (list T)) :=
  mkCodec (slice_t (gotype_of c)) None
    (fun s => match s with Some (_ :: _) => false | _ => true end)
    (fun s =>
       match s with
       | None => Ok JNull
       | Some l =>
           match enc_elems c l with
           | Ok vs => Ok (JArray vs)
           | Err e => Err e
           end
       end)
    (fun v old =>
       match v with
       | JNull => None
       | JArray vs => Some (dec_elems c vs (match old with Some l => l | None => [] end))
       | _ => old
       end).

Definition fld {S T} (name : string) (c : codec T) (get : S -> T) : field S :=
  mkField S name false (gotype_of c)
    (fun s => isEmptyValue c (get s)) (fun s => enc c (get s)).

Definition fld_omitempty {S T} (name : string) (c : codec T) (get : S -> T)
  : field S :=
  mkField S name true (gotype_of c)
    (fun s => isEmptyValue c (get s)) (fun s => enc c (get s)).

(** The members the encoder writes for a struct, in field order. *)
Fixpoint encode_fields {S} (fs : list (field S)) (s : S)
  : result (list (string * value)) :=
  match fs with
  | [] => Ok []
  | f :: r =>
      if omitEmpty f && fempty f s then encode_fields r s
      else
        match fenc f s with
        | Err e => Err e
        | Ok v =>
            match encode_fields r s with
            | Err e => Err e
            | Ok ms => Ok ((fname f, v) :: ms)
            end
        end
  end.

(** What decoding an object leaves in the field [name]: the members whose
    key stands for that field are stored one after the other. *)
Definition into {T} (names : list string) (ms : list (string * value))
    (name : string) (c : codec T) (old : T) : T :=
  fold_left
    (fun cur m =>
       match resolve names (unquote (fst m)) with
       | Some n => if String.eqb n name then dec c (snd m) cur else cur
       | None => cur
       end)
    ms old.

(** The codec of a struct type, from its fields and from how a value is put
    together from what [into] leaves in each field. *)
Definition struct_ {S} (name : string) (fields : list (field S)) (zero : S)
    (build : (forall T, string -> codec T -> T -> T) -> S -> S) : codec S :=
  mkCodec (struct_t name (map (fun f => (fname f, ftype f)) fields)) zero
    (fun _ => false)
    (fun s =>
       match encode_fields fields s with
       | Ok ms => Ok (JObject ms)
       | Err e => Err e
       end)
    (fun v old =>
       match v with
       | JObject ms => build (fun T => into (map fname fields) ms) old
       | _ => old
       end).

(** [json.Marshal] *)
Definition Marshal {T} (c : codec T) (x : T) : result string :=
  match enc c x with
  | Ok v => Ok (encode v)
  | Err e => Err e
  end.

(** [json.NewDecoder(strings.NewReader(text)).Decode(&target)].  The target
    comes back only when the error is nil: no caller looks at it otherwise. *)
Definition Decode {T} (c : codec T) (text : string) (target : T) : result T :=
  match readValue text with
  | Err e => Err e
  | Ok v =>
      match check (gotype_of c) "" "" v None with
      | Err e => Err e
      | Ok (Some e) => Err e
      | Ok None => Ok (dec c v target)
      end
  end.

End Decoding.

End json.

(* ================================================================= *)
(** ** types.go *)

(** Check types, escalation types, assertion sources and comparisons. *)
Definition TypeBrowser : string := "BROWSER".
Definition TypeAPI : string := "API".
Definition RunBased : string := "RUN_BASED".
Definition TimeBased : string := "TIME_BASED".
Definition StatusCode : string := "STATUS_CODE".
Definition JSONBody : string := "JSON_BODY".
Definition TextBody : string := "TEXT_BODY".
Definition Headers : string := "HEADERS".
Definition ResponseTime : string := "RESPONSE_TIME".
Definition Equals : string := "EQUALS".
Definition NotEquals : string := "NOT_EQUALS".
Definition IsEmpty : string := "IS_EMPTY".
Definition NotEmpty : string := "NOT_EMPTY".
Definition GreaterThan : string := "GREATER_THAN".
Definition LessThan : string := "LESS_THAN".
Definition Contains : string := "CONTAINS".
Definition NotContains : string := "NOT_CONTAINS".

(** The structs, each with what its field tags tell [encoding/json]: the key
    of every field and whether [omitempty] is set, in field order. *)

Record KeyValue : Type := {
  KeyValue_Key : string;
  KeyValue_Value : string;
  KeyValue_Locked : bool
}.

Definition json_KeyValue : json.codec KeyValue :=
  json.struct_ "KeyValue"
    [ json.fld "key" json.string_ KeyValue_Key;
      json.fld "value" json.string_ KeyValue_Value;
      json.fld "locked" json.bool_ KeyValue_Locked ]
    {|
      KeyValue_Key := EmptyString;
      KeyValue_Value := EmptyString;
      KeyValue_Locked := false |}
    (fun at_ old =>
       {|
         KeyValue_Key := at_ _ "key" json.string_ (KeyValue_Key old);
         KeyValue_Value := at_ _ "value" json.string_ (KeyValue_Value old);
         KeyValue_Locked := at_ _ "locked" json.bool_ (KeyValue_Locked old) |}).

Record EnvironmentVariable : Type := {
  EnvironmentVariable_Key : string;
  EnvironmentVariable_Value : string;
  EnvironmentVariable_Locked : bool
}.

Definition json_EnvironmentVariable : json.codec EnvironmentVariable :=
  json.struct_ "EnvironmentVariable"
    [ json.fld "key" json.string_ EnvironmentVariable_Key;
      json.fld "value" json.string_ EnvironmentVariable_Value;
      json.fld "locked" json.bool_ EnvironmentVariable_Locked ]
    {|
      EnvironmentVariable_Key := EmptyString;
      EnvironmentVariable_Value := EmptyString;
      EnvironmentVariable_Locked := false |}
    (fun at_ old =>
       {|
         EnvironmentVariable_Key := at_ _ "key" json.string_ (EnvironmentVariable_Key old);
         EnvironmentVariable_Value := at_ _ "value" json.string_ (EnvironmentVariable_Value old);
         EnvironmentVariable_Locked := at_ _ "locked" json.bool_ (EnvironmentVariable_Locked old) |}).

Record BasicAuth : Type := {
  BasicAuth_Username : string;
  BasicAuth_Password : string
}.

Definition json_BasicAuth : json.codec BasicAuth :=
  json.struct_ "BasicAuth"
    [ json.fld_omitempty "username" json.string_ BasicAuth_Username;
      json.fld_omitempty "password" json.string_ BasicAuth_Password ]
    {|
      BasicAuth_Username := EmptyString;
      BasicAuth_Password := EmptyString |}
    (fun at_ old =>
       {|
         BasicAuth_Username := at_ _ "username" json.string_ (BasicAuth_Username old);
         BasicAuth_Password := at_ _ "password" json.string_ (BasicAuth_Password old) |}).

Record Assertion : Type := {
  Assertion_Edit : bool;
  Assertion_Order : Z;
  Assertion_ArrayIndex : Z;
  Assertion_ArraySelector : Z;
  Assertion_Source : string;
  Assertion_Property : string;
  Assertion_Comparison : string;
  Assertion_Target : string
}.

Definition json_Assertion : json.codec Assertion :=
  json.struct_ "Assertion"
    [ json.fld "edit" json.bool_ Assertion_Edit;
      json.fld "order" json.int_ Assertion_Order;
      json.fld "arrayIndex" json.int_ Assertion_ArrayIndex;
      json.fld "arraySelector" json.int_ Assertion_ArraySelector;
      json.fld "source" json.string_ Assertion_Source;
      json.fld "property" json.string_ Assertion_Property;
      json.fld "comparison" json.string_ Assertion_Comparison;
      json.fld "target" json.string_ Assertion_Target ]
    {|
      Assertion_Edit := false;
      Assertion_Order := 0;
      Assertion_ArrayIndex := 0;
      Assertion_ArraySelector := 0;
      Assertion_Source := EmptyString;
      Assertion_Property := EmptyString;
      Assertion_Comparison := EmptyString;
      Assertion_Target := EmptyString |}
    (fun at_ old =>
       {|
         Assertion_Edit := at_ _ "edit" json.bool_ (Assertion_Edit old);
         Assertion_Order := at_ _ "order" json.int_ (Assertion_Order old);
         Assertion_ArrayIndex := at_ _ "arrayIndex" json.int_ (Assertion_ArrayIndex old);
         Assertion_ArraySelector := at_ _ "arraySelector" json.int_ (Assertion_ArraySelector old);
         Assertion_Source := at_ _ "source" json.string_ (Assertion_Source old);
         Assertion_Property := at_ _ "property" json.string_ (Assertion_Property old);
         Assertion_Comparison := at_ _ "comparison" json.string_ (Assertion_Comparison old);
         Assertion_Target := at_ _ "target" json.string_ (Assertion_Target old) |}).

Record Request : Type := {
  Request_Method : string;
  Request_URL : string;
  Request_FollowRedirects : bool;
  Request_Body : string;
  Request_BodyType : string;
  Request_Headers : option (list KeyValue);
  Request_QueryParameters : option (list KeyValue);
  Request_Assertions : option (list Assertion);
  Request_BasicAuth : BasicAuth
}.

Definition json_Request : json.codec Request :=
  json.struct_ "Request"
    [ json.fld "method" json.string_ Request_Method;
      json.fld "url" json.string_ Request_URL;
      json.fld "followRedirects" json.bool_ Request_FollowRedirects;
      json.fld "body" json.string_ Request_Body;
      json.fld_omitempty "bodyType" json.string_ Request_BodyType;
      json.fld "headers" (json.slice_ json_KeyValue) Request_Headers;
      json.fld "queryParameters" (json.slice_ json_KeyValue) Request_QueryParameters;
      json.fld "assertions" (json.slice_ json_Assertion) Request_Assertions;
      json.fld_omitempty "basicAuth" json_BasicAuth Request_BasicAuth ]
    {|
      Request_Method := EmptyString;
      Request_URL := EmptyString;
      Request_FollowRedirects := false;
      Request_Body := EmptyString;
      Request_BodyType := EmptyString;
      Request_Headers := None;
      Request_QueryParameters := None;
      Request_Assertions := None;
      Request_BasicAuth := json.zero json_BasicAuth |}
    (fun at_ old =>
       {|
         Request_Method := at_ _ "method" json.string_ (Request_Method old);
         Request_URL := at_ _ "url" json.string_ (Request_URL old);
         Request_FollowRedirects := at_ _ "followRedirects" json.bool_ (Request_FollowRedirects old);
         Request_Body := at_ _ "body" json.string_ (Request_Body old);
         Request_BodyType := at_ _ "bodyType" json.string_ (Request_BodyType old);
         Request_Headers := at_ _ "headers" (json.slice_ json_KeyValue) (Request_Headers old);
         Request_QueryParameters := at_ _ "queryParameters" (json.slice_ json_KeyValue) (Request_QueryParameters old);
         Request_Assertions := at_ _ "assertions" (json.slice_ json_Assertion) (Request_Assertions old);
         Request_BasicAuth := at_ _ "basicAuth" json_BasicAuth (Request_BasicAuth old) |}).

Record RunBasedEscalation : Type := {
  RunBasedEscalation_FailedRunThreshold : Z
}.

Definition json_RunBasedEscalation : json.codec RunBasedEscalation :=
  json.struct_ "RunBasedEscalation"
    [ json.fld_omitempty "failedRunThreshold" json.int_ RunBasedEscalation_FailedRunThreshold ]
    {|
      RunBasedEscalation_FailedRunThreshold := 0 |}
    (fun at_ old =>
       {|
         RunBasedEscalation_FailedRunThreshold := at_ _ "failedRunThreshold" json.int_ (RunBasedEscalation_FailedRunThreshold old) |}).

Record TimeBasedEscalation : Type := {
  TimeBasedEscalation_MinutesFailingThreshold : Z
}.

Definition json_TimeBasedEscalation : json.codec TimeBasedEscalation :=
  json.struct_ "TimeBasedEscalation"
    [ json.fld_omitempty "minutesFailingThreshold" json.int_ TimeBasedEscalation_MinutesFailingThreshold ]
    {|
      TimeBasedEscalation_MinutesFailingThreshold := 0 |}
    (fun at_ old =>
       {|
         TimeBasedEscalation_MinutesFailingThreshold := at_ _ "minutesFailingThreshold" json.int_ (TimeBasedEscalation_MinutesFailingThreshold old) |}).

Record Reminders : Type := {
  Reminders_Amount : Z;
  Reminders_Interval : Z
}.

Definition json_Reminders : json.codec Reminders :=
  json.struct_ "Reminders"
    [ json.fld_omitempty "amount" json.int_ Reminders_Amount;
      json.fld_omitempty "interval" json.int_ Reminders_Interval ]
    {|
      Reminders_Amount := 0;
      Reminders_Interval := 0 |}
    (fun at_ old =>
       {|
         Reminders_Amount := at_ _ "amount" json.int_ (Reminders_Amount old);
         Reminders_Interval := at_ _ "interval" json.int_ (Reminders_Interval old) |}).

Record SSLCertificates : Type := {
  SSLCertificates_Enabled : bool;
  SSLCertificates_AlertThreshold : Z
}.

Definition json_SSLCertificates : json.codec SSLCertificates :=
  json.struct_ "SSLCertificates"
    [ json.fld "enabled" json.bool_ SSLCertificates_Enabled;
      json.fld "alertThreshold" json.int_ SSLCertificates_AlertThreshold ]
    {|
      SSLCertificates_Enabled := false;
      SSLCertificates_AlertThreshold := 0 |}
    (fun at_ old =>
       {|
         SSLCertificates_Enabled := at_ _ "enabled" json.bool_ (SSLCertificates_Enabled old);
         SSLCertificates_AlertThreshold := at_ _ "alertThreshold" json.int_ (SSLCertificates_AlertThreshold old) |}).

Record AlertSettings : Type := {
  AlertSettings_EscalationType : string;
  AlertSettings_RunBasedEscalation : RunBasedEscalation;
  AlertSettings_TimeBasedEscalation : TimeBasedEscalation;
  AlertSettings_Reminders : Reminders;
  AlertSettings_SSLCertificates : SSLCertificates
}.

Definition json_AlertSettings : json.codec AlertSettings :=
  json.struct_ "AlertSettings"
    [ json.fld_omitempty "escalationType" json.string_ AlertSettings_EscalationType;
      json.fld_omitempty "runBasedEscalation" json_RunBasedEscalation AlertSettings_RunBasedEscalation;
      json.fld_omitempty "timeBasedEscalation" json_TimeBasedEscalation AlertSettings_TimeBasedEscalation;
      json.fld_omitempty "reminders" json_Reminders AlertSettings_Reminders;
      json.fld_omitempty "sslCertificates" json_SSLCertificates AlertSettings_SSLCertificates ]
    {|
      AlertSettings_EscalationType := EmptyString;
      AlertSettings_RunBasedEscalation := json.zero json_RunBasedEscalation;
      AlertSettings_TimeBasedEscalation := json.zero json_TimeBasedEscalation;
      AlertSettings_Reminders := json.zero json_Reminders;
      AlertSettings_SSLCertificates := json.zero json_SSLCertificates |}
    (fun at_ old =>
       {|
         AlertSettings_EscalationType := at_ _ "escalationType" json.string_ (AlertSettings_EscalationType old);
         AlertSettings_RunBasedEscalation := at_ _ "runBasedEscalation" json_RunBasedEscalation (AlertSettings_RunBasedEscalation old);
         AlertSettings_TimeBasedEscalation := at_ _ "timeBasedEscalation" json_TimeBasedEscalation (AlertSettings_TimeBasedEscalation old);
         AlertSettings_Reminders := at_ _ "reminders" json_Reminders (AlertSettings_Reminders old);
         AlertSettings_SSLCertificates := at_ _ "sslCertificates" json_SSLCertificates (AlertSettings_SSLCertificates old) |}).

Record Subscription : Type := {
  Subscription_ID : string;
  Subscription_CheckID : string;
  Subscription_AlertChannelID : Z;
  Subscription_Activated : bool
}.

Definition json_Subscription : json.codec Subscription :=
  json.struct_ "Subscription"
    [ json.fld_omitempty "id" json.string_ Subscription_ID;
      json.fld_omitempty "checkId" json.string_ Subscription_CheckID;
      json.fld_omitempty "alertChannelId" json.int64_ Subscription_AlertChannelID;
      json.fld "activated" json.bool_ Subscription_Activated ]
    {|
      Subscription_ID := EmptyString;
      Subscription_CheckID := EmptyString;
      Subscription_AlertChannelID := 0;
      Subscription_Activated := false |}
    (fun at_ old =>
       {|
         Subscription_ID := at_ _ "id" json.string_ (Subscription_ID old);
         Subscription_CheckID := at_ _ "checkId" json.string_ (Subscription_CheckID old);
         Subscription_AlertChannelID := at_ _ "alertChannelId" json.int64_ (Subscription_AlertChannelID old);
         Subscription_Activated := at_ _ "activated" json.bool_ (Subscription_Activated old) |}).

Record Check : Type := {
  Check_ID : string;
  Check_Name : string;
  Check_Type : string;
  Check_Frequency : Z;
  Check_Activated : bool;
  Check_Muted : bool;
  Check_ShouldFail : bool;
  Check_Locations : option (list string);
  Check_DegradedResponseTime : Z;
  Check_MaxResponseTime : Z;
  Check_Script : string;
  Check_CreatedAt : time.Time;
  Check_UpdatedAt : time.Time;
  Check_EnvironmentVariables : option (list EnvironmentVariable);
  Check_DoubleCheck : bool;
  Check_Tags : option (list string);
  Check_SSLCheck : bool;
  Check_SSLCheckDomain : string;
  Check_SetupSnippetID : Z;
  Check_TearDownSnippetID : Z;
  Check_LocalSetupScript : string;
  Check_LocalTearDownScript : string;
  Check_AlertSettings : AlertSettings;
  Check_UseGlobalAlertSettings : bool;
  Check_Request : Request;
  Check_AlertChannelSubscriptions : option (list Subscription)
}.

Definition json_Check (layoutParse : string -> result time.Time) : json.codec Check :=
  json.struct_ "Check"
    [ json.fld "id" json.string_ Check_ID;
      json.fld "name" json.string_ Check_Name;
      json.fld "checkType" json.string_ Check_Type;
      json.fld "frequency" json.int_ Check_Frequency;
      json.fld "activated" json.bool_ Check_Activated;
      json.fld "muted" json.bool_ Check_Muted;
      json.fld "shouldFail" json.bool_ Check_ShouldFail;
      json.fld "locations" (json.slice_ json.string_) Check_Locations;
      json.fld "degradedResponseTime" json.int_ Check_DegradedResponseTime;
      json.fld "maxResponseTime" json.int_ Check_MaxResponseTime;
      json.fld_omitempty "script" json.string_ Check_Script;
      json.fld_omitempty "created_at" (json.Time_ layoutParse) Check_CreatedAt;
      json.fld_omitempty "updated_at" (json.Time_ layoutParse) Check_UpdatedAt;
      json.fld "environmentVariables" (json.slice_ json_EnvironmentVariable) Check_EnvironmentVariables;
      json.fld "doubleCheck" json.bool_ Check_DoubleCheck;
      json.fld_omitempty "tags" (json.slice_ json.string_) Check_Tags;
      json.fld "sslCheck" json.bool_ Check_SSLCheck;
      json.fld "sslCheckDomain" json.string_ Check_SSLCheckDomain;
      json.fld_omitempty "setupSnippetId" json.int64_ Check_SetupSnippetID;
      json.fld_omitempty "tearDownSnippetId" json.int64_ Check_TearDownSnippetID;
      json.fld_omitempty "localSetupScript" json.string_ Check_LocalSetupScript;
      json.fld_omitempty "localTearDownScript" json.string_ Check_LocalTearDownScript;
      json.fld_omitempty "alertSettings" json_AlertSettings Check_AlertSettings;
      json.fld "useGlobalAlertSettings" json.bool_ Check_UseGlobalAlertSettings;
      json.fld "request" json_Request Check_Request;
      json.fld "alertChannelSubscriptions" (json.slice_ json_Subscription) Check_AlertChannelSubscriptions ]
    {|
      Check_ID := EmptyString;
      Check_Name := EmptyString;
      Check_Type := EmptyString;
      Check_Frequency := 0;
      Check_Activated := false;
      Check_Muted := false;
      Check_ShouldFail := false;
      Check_Locations := None;
      Check_DegradedResponseTime := 0;
      Check_MaxResponseTime := 0;
      Check_Script := EmptyString;
      Check_CreatedAt := time.zero;
      Check_UpdatedAt := time.zero;
      Check_EnvironmentVariables := None;
      Check_DoubleCheck := false;
      Check_Tags := None;
      Check_SSLCheck := false;
      Check_SSLCheckDomain := EmptyString;
      Check_SetupSnippetID := 0;
      Check_TearDownSnippetID := 0;
      Check_LocalSetupScript := EmptyString;
      Check_LocalTearDownScript := EmptyString;
      Check_AlertSettings := json.zero json_AlertSettings;
      Check_UseGlobalAlertSettings := false;
      Check_Request := json.zero json_Request;
      Check_AlertChannelSubscriptions := None |}
    (fun at_ old =>
       {|
         Check_ID := at_ _ "id" json.string_ (Check_ID old);
         Check_Name := at_ _ "name" json.string_ (Check_Name old);
         Check_Type := at_ _ "checkType" json.string_ (Check_Type old);
         Check_Frequency := at_ _ "frequency" json.int_ (Check_Frequency old);
         Check_Activated := at_ _ "activated" json.bool_ (Check_Activated old);
         Check_Muted := at_ _ "muted" json.bool_ (Check_Muted old);
         Check_ShouldFail := at_ _ "shouldFail" json.bool_ (Check_ShouldFail old);
         Check_Locations := at_ _ "locations" (json.slice_ json.string_) (Check_Locations old);
         Check_DegradedResponseTime := at_ _ "degradedResponseTime" json.int_ (Check_DegradedResponseTime old);
         Check_MaxResponseTime := at_ _ "maxResponseTime" json.int_ (Check_MaxResponseTime old);
         Check_Script := at_ _ "script" json.string_ (Check_Script old);
         Check_CreatedAt := at_ _ "created_at" (json.Time_ layoutParse) (Check_CreatedAt old);
         Check_UpdatedAt := at_ _ "updated_at" (json.Time_ layoutParse) (Check_UpdatedAt old);
         Check_EnvironmentVariables := at_ _ "environmentVariables" (json.slice_ json_EnvironmentVariable) (Check_EnvironmentVariables old);
         Check_DoubleCheck := at_ _ "doubleCheck" json.bool_ (Check_DoubleCheck old);
         Check_Tags := at_ _ "tags" (json.slice_ json.string_) (Check_Tags old);
         Check_SSLCheck := at_ _ "sslCheck" json.bool_ (Check_SSLCheck old);
         Check_SSLCheckDomain := at_ _ "sslCheckDomain" json.string_ (Check_SSLCheckDomain old);
         Check_SetupSnippetID := at_ _ "setupSnippetId" json.int64_ (Check_SetupSnippetID old);
         Check_TearDownSnippetID := at_ _ "tearDownSnippetId" json.int64_ (Check_TearDownSnippetID old);
         Check_LocalSetupScript := at_ _ "localSetupScript" json.string_ (Check_LocalSetupScript old);
         Check_LocalTearDownScript := at_ _ "localTearDownScript" json.string_ (Check_LocalTearDownScript old);
         Check_AlertSettings := at_ _ "alertSettings" json_AlertSettings (Check_AlertSettings old);
         Check_UseGlobalAlertSettings := at_ _ "useGlobalAlertSettings" json.bool_ (Check_UseGlobalAlertSettings old);
         Check_Request := at_ _ "request" json_Request (Check_Request old);
         Check_AlertChannelSubscriptions := at_ _ "alertChannelSubscriptions" (json.slice_ json_Subscription) (Check_AlertChannelSubscriptions old) |}).

(* ================================================================= *)
(** ** [io], [io/ioutil], [fmt] *)

Module io.

(** A reader that is read to its end: the bytes it still delivers, and the
    error that ends the reading ([None] for [io.EOF]).  Once read, a reader
    has nothing left and keeps failing the way it did, as the response
    bodies of [net/http] do. *)
Record ReadCloser : Type := {
  content : string;
  failure : option error
}.

Definition consumed (r : ReadCloser) : ReadCloser :=
  {| content := EmptyString; failure := failure r |}.

(** An [io.Writer] by the error of its [Write], given what it has taken so
    far ([None]: all bytes written). *)
Definition Writer : Type := list string -> string -> option error.

End io.

Module ioutil.

(** [ioutil.ReadAll]: what was read, and the error that stopped the reading
    if it was not [io.EOF]. *)
Definition ReadAll (r : io.ReadCloser) : string * option error :=
  (io.content r, io.failure r).

End ioutil.

Module fmt.

Definition Errorf (format : string) (a : list operand) : error :=
  fmt_Errorf format a.

End fmt.

(* ================================================================= *)
(** ** [net/http], [net/http/httputil] *)

Module http.

Definition MethodGet : string := "GET".
Definition MethodPost : string := "POST".
Definition MethodPut : string := "PUT".
Definition MethodDelete : string := "DELETE".

Definition StatusOK : Z := 200.
Definition StatusCreated : Z := 201.
Definition StatusNoContent : Z := 204.

(** The bytes of an HTTP token: letters, digits and a few signs. *)
Definition isTokenByte (c : ascii) : bool :=
  between 48 57 c || between 65 90 c || between 97 122 c
  || existsb (Ascii.eqb c)
       ["!"; "#"; "$"; "%"; "&"; "'"; "*"; "+"; "-"; "."; "^"; "_"; "`"; "|";
        "~"]%char.

Definition validMethod (method : string) : bool :=
  negb (String.eqb method EmptyString) && forallb_string isTokenByte method.

(** An outgoing request: what [NewRequest] is given, and the headers added
    since.  [Request_URL] is the text [url.Parse] accepted. *)
Record Request : Type := {
  Request_Method : string;
  Request_URL : string;
  Request_Header : list (string * string);
  Request_Body : string
}.

(** A response: its status code and its body, still to be read. *)
Record Response : Type := {
  Response_StatusCode : Z;
  Response_Body : io.ReadCloser
}.

(** [http.NewRequest], with the verdict of [url.Parse] given as [parse]. *)
Definition NewRequest (parse : string -> option error)
    (method url : string) (body : string) : result Request :=
  let method := if String.eqb method EmptyString then "GET" else method in
  if negb (validMethod method)
  then Err (fmt.Errorf "net/http: invalid method %q" [OString method])
  else
    match parse url with
    | Some err => Err err
    | None =>
        Ok {| Request_Method := method; Request_URL := url;
              Request_Header := []; Request_Body := body |}
    end.

(** [textproto.CanonicalMIMEHeaderKey]: the first letter and those after a
    hyphen in upper case, the others in lower case; a key with a byte that is
    no token byte stays as it is. *)
Fixpoint canonical (upper : bool) (s : string) : string :=
  match s with
  | EmptyString => EmptyString
  | String c r =>
      let c' :=
        if upper && between 97 122 c then chr (byte c - 32)
        else if negb upper && between 65 90 c then chr (byte c + 32)
        else c in
      String c' (canonical (Ascii.eqb c' "-") r)
  end.

Definition CanonicalMIMEHeaderKey (s : string) : string :=
  if forallb_string isTokenByte s then canonical true s else s.

(** [req.Header.Add(key, value)] *)
Definition Header_Add (req : Request) (key value : string) : Request :=
  {| Request_Method := Request_Method req;
     Request_URL := Request_URL req;
     Request_Header :=
       Request_Header req ++ [(CanonicalMIMEHeaderKey key, value)];
     Request_Body := Request_Body req |}.

(** An [*http.Client] by what its [Do] answers to a request, given the
    requests it was handed before. *)
Definition Client : Type := list Request -> Request -> result Response.

End http.

Module httputil.

(** [drainBody]: the body is read to its end and closed (closing is taken
    to succeed); two readers over the bytes come back, or the error of the
    reading along with the body it came from. *)
Definition drainBody (b : io.ReadCloser)
  : option io.ReadCloser * io.ReadCloser * option error :=
  match ioutil.ReadAll b with
  | (_, Some err) => (None, io.consumed b, Some err)
  | (data, None) =>
      let buf := {| io.content := data; io.failure := None |} in
      (Some buf, buf, None)
  end.

(** [httputil.DumpResponse(resp, true)]: the response as it came over the
    wire, which [write] ([resp.Write] into the dump's buffer) produces from a
    copy of the body; the response is left with the other copy.  When the
    body cannot be read the response keeps the body that failed. *)
Definition DumpResponse (write : http.Response -> result string)
    (resp : http.Response) : http.Response * result string :=
  let with_body b :=
    {| http.Response_StatusCode := http.Response_StatusCode resp;
       http.Response_Body := b |} in
  match drainBody (http.Response_Body resp) with
  | (_, b, Some err) => (with_body b, Err err)
  | (Some save, b, None) => (with_body save, write (with_body b))
  | (None, b, None) => (with_body b, write (with_body b))
  end.

End httputil.

(* ================================================================= *)
(** ** What the model leaves to the platform *)

(** The library calls whose answers the model does not compute. *)
Record Platform : Type := {
  (** [time.Parse(time.RFC3339, value)] *)
  time_Parse : string -> result time.Time;
  (** the error of [url.Parse(rawurl)], [None] when it parses *)
  url_Parse : string -> option error;
  (** [httputil.DumpRequestOut(req, true)] *)
  httputil_DumpRequestOut : http.Request -> result string;
  (** [resp.Write(w)], as a string *)
  Response_Write : http.Response -> result string;
  (** [os.LookupEnv] *)
  os_LookupEnv : string -> option string;
  (** [http.DefaultClient] *)
  http_DefaultClient : http.Client
}.

(* ================================================================= *)
(** ** checkly.go *)

(** [Client], from types.go.  A nil [Debug] is [None]. *)
Record Client : Type := {
  Client_apiKey : string;
  Client_URL : string;
  Client_HTTPClient : http.Client;
  Client_Debug : option io.Writer
}.

(** What a method of [*Client] can read and change: the struct its receiver
    points to, the requests handed to [HTTPClient.Do] so far (oldest first)
    and what the [Debug] writer has taken. *)
Record State : Type := {
  self : Client;
  sent : list http.Request;
  written : list string
}.

Definition M (A : Type) : Type := State -> A * State.

Definition ret {A} (a : A) : M A := fun st => (a, st).

Definition bind {A B} (m : M A) (k : A -> M B) : M B :=
  fun st => let (a, st') := m st in k a st'.

Notation "x <- m ;; k" := (bind m (fun x => k))
  (at level 100, m at next level, right associativity).
Notation "' p <- m ;; k" := (bind m (fun x => match x with p => k end))
  (at level 100, p pattern, m at next level, right associativity).

(** [*c], read through the receiver. *)
Definition receiver : M Client := fun st => (self st, st).

(** [client.Do(req)] *)
Definition Do (client : http.Client) (req : http.Request)
  : M (result http.Response) :=
  fun st =>
    (client (sent st) req,
     {| self := self st; sent := sent st ++ [req]; written := written st |}).

Definition newline : string := str (chr 10).

(** [fmt.Fprintln(w, s)]: one [Write] of the line. *)
Definition Fprintln (w : io.Writer) (s : string) : M (option error) :=
  fun st =>
    match w (written st) (s ++ newline) with
    | Some err => (Some err, st)
    | None =>
        (None,
         {| self := self st; sent := sent st;
            written := written st ++ [s ++ newline] |})
    end.

Section Checkly.

Variable P : Platform.

(** The JSON form of a [Check] on this platform. *)
Definition Check_json : json.codec Check := json_Check (time_Parse P).

Definition getEnv (key fallback : string) : string :=
  match os_LookupEnv P key with
  | Some value => value
  | None => fallback
  end.

(** NewClient takes a Checkly API key, and returns a Client ready to use. *)
Definition NewClient (apiKey : string) : Client :=
  {| Client_apiKey := apiKey;
     Client_URL := getEnv "CHECKLY_API_URL" "https://api.checklyhq.com";
     Client_HTTPClient := http_DefaultClient P;
     Client_Debug := None |}.

(** dumpResponse writes the raw response data to the debug output.  The
    error of the dump is dropped, as are those of the two writes.  The
    method is called with [Debug] set only; a nil writer takes nothing here
    (in Go the call would panic). *)
Definition dumpResponse (resp : http.Response) : M http.Response :=
  c <- receiver ;;
  let (resp', dumped) := httputil.DumpResponse (Response_Write P) resp in
  let responseDump :=
    match dumped with
    | Ok dump => dump
    | Err _ => EmptyString
    end in
  match Client_Debug c with
  | Some debug =>
      _ <- Fprintln debug responseDump ;;
      _ <- Fprintln debug EmptyString ;;
      ret resp'
  | None => ret resp'
  end.

(** MakeAPICall calls the Checkly API with the specified URL and data, and
    returns the HTTP status code and string data of the response.  The
    deferred [resp.Body.Close()] is not part of the model: the code drops
    its error, which has no part in the result, and closing a body is taken
    to succeed throughout (see [httputil.drainBody]). *)
Definition MakeAPICall (method URL : string) (data : string)
  : M (Z * string * option error) :=
  c <- receiver ;;
  let requestURL := Client_URL c ++ "/v1/" ++ URL in
  match http.NewRequest (url_Parse P) method requestURL data with
  | Err err =>
      ret (0, EmptyString,
           Some (fmt.Errorf "failed to create HTTP request: %v" [OError err]))
  | Ok req =>
      let req := http.Header_Add req "Authorization"
                   ("Bearer " ++ Client_apiKey c) in
      let req := http.Header_Add req "content-type" "application/json" in
      dumpErr <-
        match Client_Debug c with
        | Some debug =>
            match httputil_DumpRequestOut P req with
            | Err err => ret (Some err)
            | Ok requestDump =>
                _ <- Fprintln debug requestDump ;;
                _ <- Fprintln debug EmptyString ;;
                ret None
            end
        | None => ret None
        end ;;
      match dumpErr with
      | Some err =>
          ret (0, EmptyString,
               Some (fmt.Errorf "error dumping HTTP request: %v" [OError err]))
      | None =>
          r <- Do (Client_HTTPClient c) req ;;
          match r with
          | Err err =>
              ret (0, EmptyString,
                   Some (fmt.Errorf "HTTP request failed: %v" [OError err]))
          | Ok resp =>
              resp <-
                match Client_Debug c with
                | Some _ => dumpResponse resp
                | None => ret resp
                end ;;
              match ioutil.ReadAll (http.Response_Body resp) with
              | (_, Some err) =>
                  ret (http.Response_StatusCode resp, EmptyString, Some err)
              | (res, None) =>
                  ret (http.Response_StatusCode resp, res, None)
              end
          end
      end
  end.

(** The two errors the operations make themselves. *)
Definition unexpected_status (status : Z) (res : string) : error :=
  fmt.Errorf "unexpected response status %d: %q" [OInt status; OString res].

Definition decoding_error (res : string) (err : error) : error :=
  fmt.Errorf "decoding error for data %s: %v" [OString res; OError err].

(** Create creates a new check with the specified details. It returns the
    check ID of the newly-created check, or an error. *)
Definition Create (check : Check) : M (string * option error) :=
  match json.Marshal Check_json check with
  | Err err => ret (EmptyString, Some err)
  | Ok data =>
      '(status, res, err) <- MakeAPICall http.MethodPost "checks" data ;;
      match err with
      | Some err => ret (EmptyString, Some err)
      | None =>
          if negb (status =? http.StatusCreated)
          then ret (EmptyString, Some (unexpected_status status res))
          else
            match json.Decode (time_Parse P) Check_json res
                    (json.zero Check_json) with
            | Err err => ret (EmptyString, Some (decoding_error res err))
            | Ok result => ret (Check_ID result, None)
            end
      end
  end.

(** Update updates an existing check with the specified details. It returns
    a non-nil error if the request failed. *)
Definition Update (ID : string) (check : Check) : M (option error) :=
  match json.Marshal Check_json check with
  | Err err => ret (Some err)
  | Ok data =>
      '(status, res, err) <- MakeAPICall http.MethodPut ("checks/" ++ ID) data ;;
      match err with
      | Some err => ret (Some err)
      | None =>
          if negb (status =? http.StatusOK)
          then ret (Some (unexpected_status status res))
          else
            match json.Decode (time_Parse P) Check_json res
                    (json.zero Check_json) with
            | Err err => ret (Some (decoding_error res err))
            | Ok _ => ret None
            end
      end
  end.

(** Delete deletes the check with the specified ID. It returns a non-nil
    error if the request failed. *)
Definition Delete (ID : string) : M (option error) :=
  '(status, res, err) <-
    MakeAPICall http.MethodDelete ("checks/" ++ ID) EmptyString ;;
  match err with
  | Some err => ret (Some err)
  | None =>
      if negb (status =? http.StatusNoContent)
      then ret (Some (unexpected_status status res))
      else ret None
  end.

(** Get takes the ID of an existing check, and returns the check
    parameters, or an error. *)
Definition Get (ID : string) : M (Check * option error) :=
  '(status, res, err) <-
    MakeAPICall http.MethodGet ("checks/" ++ ID) EmptyString ;;
  match err with
  | Some err => ret (json.zero Check_json, Some err)
  | None =>
      if negb (status =? http.StatusOK)
      then ret (json.zero Check_json, Some (unexpected_status status res))
      else
        match json.Decode (time_Parse P) Check_json res
                (json.zero Check_json) with
        | Err err => ret (json.zero Check_json, Some (decoding_error res err))
        | Ok check => ret (check, None)
        end
  end.

End Checkly.

(* ================================================================= *)
(** ** Calls, and concrete settings for the examples *)

(** A call of one of the client's methods. *)
Inductive Call : Type :=
| CallCreate (check : Check)
| CallGet (ID : string)
| CallUpdate (ID : string) (check : Check)
| CallDelete (ID : string).

(** The call made, its results dropped. *)
Definition call (P : Platform) (k : Call) (st : State) : State :=
  match k with
  | CallCreate check => snd (Create P check st)
  | CallGet ID => snd (Get P ID st)
  | CallUpdate ID check => snd (Update P ID check st)
  | CallDelete ID => snd (Delete P ID st)
  end.

Definition calls (P : Platform) (ks : list Call) (st : State) : State :=
  fold_left (fun st k => call P k st) ks st.

(** The method, the path and the payload of the request a call is to
    make. *)
Definition method_of (k : Call) : string :=
  match k with
  | CallCreate _ => http.MethodPost
  | CallGet _ => http.MethodGet
  | CallUpdate _ _ => http.MethodPut
  | CallDelete _ => http.MethodDelete
  end.

Definition path_of (k : Call) : string :=
  match k with
  | CallCreate _ => "checks"
  | CallGet ID | CallUpdate ID _ | CallDelete ID => "checks/" ++ ID
  end.

Definition payload_of (P : Platform) (k : Call) : result string :=
  match k with
  | CallCreate check | CallUpdate _ check => json.Marshal (Check_json P) check
  | CallGet _ | CallDelete _ => Ok EmptyString
  end.

(** The request [MakeAPICall] builds, headers added, or why it cannot. *)
Definition outgoing (P : Platform) (c : Client) (method URL data : string)
  : result http.Request :=
  match http.NewRequest (url_Parse P) method
          (Client_URL c ++ "/v1/" ++ URL) data with
  | Err err => Err err
  | Ok req =>
      Ok (http.Header_Add
            (http.Header_Add req "Authorization" ("Bearer " ++ Client_apiKey c))
            "content-type" "application/json")
  end.


(** Whether an object key stands for the [ID] field of [Check]: it reads
    [id], letter case aside. *)
Definition names_id (key : string) : bool :=
  String.eqb (json.foldName (json.unquote key)) "ID".

(** The last value that the members keyed [id] give that is not [null]. *)
Definition last_id (ms : list (string * json.value)) : option json.value :=
  fold_left
    (fun cur m =>
       if names_id (fst m)
       then match snd m with
            | json.JNull => cur
            | v => Some v
            end
       else cur)
    ms None.

(** JSON text for the examples, written with apostrophes for the quotes. *)
Fixpoint sq (s : string) : string :=
  match s with
  | EmptyString => EmptyString
  | String c r => String (if Ascii.eqb c "'" then dquote else c) (sq r)
  end.

Definition hasPrefix (p s : string) : bool := String.prefix p s.

(** A platform for the examples: no timestamp is read but by the strict
    reader, a URL parses unless it has a control character, and a request
    can be dumped when its scheme is one [net/http] speaks.  Dumps are cut
    down to their first line and the body. *)
Definition examplePlatform : Platform :=
  {| time_Parse := fun value => Err (time_ParseError value);
     url_Parse := fun rawurl =>
       if forallb_string
            (fun c => negb ((byte c <? 32) || (byte c =? 127))) rawurl
       then None
       else Some (errors_New "net/url: invalid control character in URL");
     httputil_DumpRequestOut := fun req =>
       if hasPrefix "http://" (http.Request_URL req)
          || hasPrefix "https://" (http.Request_URL req)
       then Ok (http.Request_Method req ++ " " ++ http.Request_URL req
                  ++ newline ++ http.Request_Body req)
       else Err (errors_New "unsupported protocol scheme");
     Response_Write := fun resp =>
       Ok ("HTTP/1.1 " ++ itoa (http.Response_StatusCode resp) ++ newline
             ++ io.content (http.Response_Body resp));
     os_LookupEnv := fun _ => None;
     http_DefaultClient := fun _ _ =>
       Err (errors_New "dial tcp: lookup api.checklyhq.com: no such host") |}.

(** A server that answers every request alike. *)
Definition answering (status : Z) (body : string) : http.Client :=
  fun _ _ =>
    Ok {| http.Response_StatusCode := status;
          http.Response_Body :=
            {| io.content := body; io.failure := None |} |}.

(** A server whose connection breaks while the body is read. *)
Definition breaking (status : Z) (err : error) : http.Client :=
  fun _ _ =>
    Ok {| http.Response_StatusCode := status;
          http.Response_Body :=
            {| io.content := "{"; io.failure := Some err |} |}.

Definition exampleClient (base : string) (transport : http.Client)
    (debug : option io.Writer) : Client :=
  {| Client_apiKey := "dummy";
     Client_URL := base;
     Client_HTTPClient := transport;
     Client_Debug := debug |}.

Definition start (c : Client) : State :=
  {| self := c; sent := []; written := [] |}.

(** A writer that takes everything, and one that takes nothing. *)
Definition stdout : io.Writer := fun _ _ => None.

(** [Check{ID: id, Name: "test", Type: TypeBrowser, Activated: true,
    CreatedAt: createdAt}] *)
Definition exampleCheck (id : string) (createdAt : time.Time) : Check :=
  {| Check_ID := id;
     Check_Name := "test";
     Check_Type := TypeBrowser;
     Check_Frequency := 0;
     Check_Activated := true;
     Check_Muted := false;
     Check_ShouldFail := false;
     Check_Locations := None;
     Check_DegradedResponseTime := 0;
     Check_MaxResponseTime := 0;
     Check_Script := EmptyString;
     Check_CreatedAt := createdAt;
     Check_UpdatedAt := time.zero;
     Check_EnvironmentVariables := None;
     Check_DoubleCheck := false;
     Check_Tags := None;
     Check_SSLCheck := false;
     Check_SSLCheckDomain := EmptyString;
     Check_SetupSnippetID := 0;
     Check_TearDownSnippetID := 0;
     Check_LocalSetupScript := EmptyString;
     Check_LocalTearDownScript := EmptyString;
     Check_AlertSettings := json.zero json_AlertSettings;
     Check_UseGlobalAlertSettings := false;
     Check_Request := json.zero json_Request;
     Check_AlertChannelSubscriptions := None |}.

(** The check of the package's tests. *)
Definition testCheck : Check := exampleCheck EmptyString time.zero.

(** A check that cannot be encoded: its creation time is in the year
    10000. *)
Definition farCheck : Check :=
  exampleCheck EmptyString (time.mkTime 10000 1 1 0 0 0 0 0).

Definition wantID : string := "73d29e72-6540-4bb5-967e-e07fa2c9465e".

(** What [MakeAPICall] makes of the answer of [HTTPClient.Do]. *)
Definition answer (r : result http.Response) : Z * string * option error :=
  match r with
  | Err err =>
      (0, EmptyString, Some (fmt.Errorf "HTTP request failed: %v" [OError err]))
  | Ok resp =>
      match io.failure (http.Response_Body resp) with
      | Some err => (http.Response_StatusCode resp, EmptyString, Some err)
      | None =>
          (http.Response_StatusCode resp,
           io.content (http.Response_Body resp), None)
      end
  end.

(** Whether the request of a call gets past the dump that tracing makes of
    it. *)
Definition dumps (P : Platform) (c : Client) (req : http.Request) : Prop :=
  Client_Debug c = None \/ exists dump, httputil_DumpRequestOut P req = Ok dump.

(** The keys of [Check], read off its codec. *)
Definition Check_keys : list string :=
  Eval cbv in
    match json.gotype_of (json_Check (fun _ => Err io_EOF)) with
    | json.struct_t _ fields => map fst fields
    | _ => []
    end.

(** The base URL of the API, and bodies a server may answer with. *)
Definition api : string := "https://api.checklyhq.com".

Definition createdBody : string :=
  sq "{'id':'73d29e72-6540-4bb5-967e-e07fa2c9465e','name':'test','checkType':'BROWSER','frequency':10,'activated':true,'created_at':'2019-11-01T10:20:30.000Z','request':{'method':'GET','url':'http://example.com'}}".

Definition mistypedBody : string := sq "{'id':'abc','frequency':'often'}".

Definition upperBody : string := sq "{'ID':'abc'}".

Definition nullIdBody : string := sq "{'name':'test','id':null}".

(** What [json.Marshal] writes for [testCheck]. *)
Definition testWire : string :=
  sq "{'id':'','name':'test','checkType':'BROWSER','frequency':0,'activated':true,'muted':false,'shouldFail':false,'locations':null,'degradedResponseTime':0,'maxResponseTime':0,'created_at':'0001-01-01T00:00:00Z','updated_at':'0001-01-01T00:00:00Z','environmentVariables':null,'doubleCheck':false,'sslCheck':false,'sslCheckDomain':'','alertSettings':{'runBasedEscalation':{},'timeBasedEscalation':{},'reminders':{},'sslCertificates':{'enabled':false,'alertThreshold':0}},'useGlobalAlertSettings':false,'request':{'method':'','url':'','followRedirects':false,'body':'','headers':null,'queryParameters':null,'assertions':null,'basicAuth':{}},'alertChannelSubscriptions':null}".


(** Further definitions for stating what the operations do. *)
(** The error a call comes back with. *)
Definition call_error (P : Platform) (k : Call) (st : State) : option error :=
  match k with
  | CallCreate check => snd (fst (Create P check st))
  | CallGet ID => snd (fst (Get P ID st))
  | CallUpdate ID check => fst (Update P ID check st)
  | CallDelete ID => fst (Delete P ID st)
  end.

(** The one status each operation takes for success, and whether it decodes
    the body it gets. *)
Definition expected_status (k : Call) : Z :=
  match k with
  | CallCreate _ => http.StatusCreated
  | CallGet _ | CallUpdate _ _ => http.StatusOK
  | CallDelete _ => http.StatusNoContent
  end.

Definition reads_check (k : Call) : bool :=
  match k with
  | CallDelete _ => false
  | _ => true
  end.

(** What [MakeAPICall] returns for a client, given the requests its HTTP
    client was handed before. *)
Definition call_result (P : Platform) (c : Client)
    (history : list http.Request) (method URL data : string)
  : Z * string * option error :=
  match outgoing P c method URL data with
  | Err err =>
      (0, EmptyString,
       Some (fmt.Errorf "failed to create HTTP request: %v" [OError err]))
  | Ok req =>
      match Client_Debug c, httputil_DumpRequestOut P req with
      | Some _, Err err =>
          (0, EmptyString,
           Some (fmt.Errorf "error dumping HTTP request: %v" [OError err]))
      | _, _ => answer (Client_HTTPClient c history req)
      end
  end.

(** What an operation makes of a call that came back without error. *)
Definition verdict (P : Platform) (k : Call) (status : Z) (res : string)
  : option error :=
  if negb (status =? expected_status k)
  then Some (fmt.Errorf "unexpected response status %d: %q"
               [OInt status; OString res])
  else if reads_check k
  then match json.Decode (time_Parse P) (Check_json P) res
               (json.zero (Check_json P)) with
       | Err err =>
           Some (fmt.Errorf "decoding error for data %s: %v"
                   [OString res; OError err])
       | Ok _ => None
       end
  else None.

(** Whether an object key stands for the field of key [name]: the two read
    the same, letter case aside. *)
Definition keyed (name key : string) : bool :=
  String.eqb (json.foldName (json.unquote key)) (json.foldName name).

(** The keys of [Request], read off its codec. *)
Definition Request_keys : list string :=
  Eval cbv in
    match json.gotype_of json_Request with
    | json.struct_t _ fields => map fst fields
    | _ => []
    end.

(** What [dumpResponse] prints for a response: its dump, nothing when the
    dump fails. *)
Definition printed (P : Platform) (resp : http.Response) : string :=
  match snd (httputil.DumpResponse (Response_Write P) resp) with
  | Ok dump => dump
  | Err _ => EmptyString
  end.

(** A line of output. *)
Definition line (s : string) : string := s ++ newline.

(** Whether a time can be written as an RFC 3339 timestamp: its year has
    four digits and its zone is less than a day off UTC. *)
Definition encodable (t : time.Time) : bool :=
  (0 <=? time.Year t) && (time.Year t <=? 9999)
  && (Z.abs (Z.quot (time.Offset t) 60) / 60 <? 24).



(** A body with a member that no field of Check is keyed for, and the same
    body without it. *)
Definition linkedBody : string :=
  sq "{'id':'abc','links':{'self':'/v1/checks/abc'},'name':'test'}".

Definition plainBody : string := sq "{'id':'abc','name':'test'}".

(* ================================================================= *)
(** ** Properties *)

Section Transport.

Variable P : Platform.

Lemma MakeAPICall_not_built : forall method URL data st err,
  outgoing P (self st) method URL data = Err err ->
  MakeAPICall P method URL data st =
  ((0, EmptyString,
    Some (fmt.Errorf "failed to create HTTP request: %v" [OError err])), st).
Proof.
  intros method URL data st err H. unfold outgoing in H.
  unfold MakeAPICall, bind, ret, receiver.
  destruct (http.NewRequest _ _ _ _); [discriminate | congruence].
Qed.

Lemma MakeAPICall_not_dumped : forall method URL data st req err,
  outgoing P (self st) method URL data = Ok req ->
  Client_Debug (self st) <> None ->
  httputil_DumpRequestOut P req = Err err ->
  MakeAPICall P method URL data st =
  ((0, EmptyString,
    Some (fmt.Errorf "error dumping HTTP request: %v" [OError err])), st).
Proof.
  intros method URL data st req err H Hd Hdump. unfold outgoing in H.
  unfold MakeAPICall, bind, ret, receiver.
  destruct (http.NewRequest _ _ _ _) as [x|]; [|discriminate].
  set (q := http.Header_Add _ _ _) in *.
  assert (q = req) as -> by congruence. clear H.
  destruct (Client_Debug (self st)); [|congruence].
  rewrite Hdump. reflexivity.
Qed.

(** Writing to the debug sink changes nothing else. *)
Lemma Fprintln_frame : forall w s st,
  self (snd (Fprintln w s st)) = self st
  /\ sent (snd (Fprintln w s st)) = sent st.
Proof.
  intros w s st. unfold Fprintln. destruct (w _ _); split; reflexivity.
Qed.

(** A response that has been dumped reads as it would have. *)
Lemma DumpResponse_reads : forall write resp,
  let resp' := fst (httputil.DumpResponse write resp) in
  http.Response_StatusCode resp' = http.Response_StatusCode resp
  /\ io.failure (http.Response_Body resp')
     = io.failure (http.Response_Body resp)
  /\ (io.failure (http.Response_Body resp) = None ->
      io.content (http.Response_Body resp')
      = io.content (http.Response_Body resp)).
Proof.
  intros write resp. unfold httputil.DumpResponse, httputil.drainBody.
  unfold ioutil.ReadAll.
  destruct (io.failure (http.Response_Body resp)) eqn:Hf; cbn;
    repeat split; auto; discriminate.
Qed.

Lemma dumpResponse_frame : forall resp st,
  fst (dumpResponse P resp st)
  = fst (httputil.DumpResponse (Response_Write P) resp)
  /\ self (snd (dumpResponse P resp st)) = self st
  /\ sent (snd (dumpResponse P resp st)) = sent st.
Proof.
  intros resp st. unfold dumpResponse, bind, ret, receiver.
  destruct (httputil.DumpResponse _ resp) as [resp' dumped]. cbn [fst].
  destruct (Client_Debug (self st)) as [w|]; [|auto].
  destruct (Fprintln w _ st) as [o1 st1] eqn:E1.
  destruct (Fprintln w _ st1) as [o2 st2] eqn:E2.
  pose proof (Fprintln_frame w EmptyString st1) as [F1 F2].
  rewrite E2 in F1, F2. cbn [snd] in F1, F2.
  match type of E1 with
  | Fprintln w ?s st = _ =>
      pose proof (Fprintln_frame w s st) as [G1 G2]
  end.
  rewrite E1 in G1, G2. cbn [snd] in G1, G2.
  cbn [fst snd]. repeat split; congruence.
Qed.

(** What is read from a response, whether it has been dumped or not. *)
Lemma read_answer : forall resp resp',
  http.Response_StatusCode resp' = http.Response_StatusCode resp ->
  io.failure (http.Response_Body resp')
  = io.failure (http.Response_Body resp) ->
  (io.failure (http.Response_Body resp) = None ->
   io.content (http.Response_Body resp')
   = io.content (http.Response_Body resp)) ->
  match ioutil.ReadAll (http.Response_Body resp') with
  | (_, Some err) =>
      (http.Response_StatusCode resp', EmptyString, Some err)
  | (res, None) => (http.Response_StatusCode resp', res, None)
  end = answer (Ok resp).
Proof.
  intros resp resp' Hs Hf Hc. unfold ioutil.ReadAll, answer.
  rewrite Hf, Hs.
  destruct (io.failure (http.Response_Body resp)); [reflexivity|].
  rewrite Hc; reflexivity.
Qed.

Lemma MakeAPICall_sent : forall method URL data st req,
  outgoing P (self st) method URL data = Ok req ->
  dumps P (self st) req ->
  sent (snd (MakeAPICall P method URL data st)) = (sent st ++ [req])%list
  /\ fst (MakeAPICall P method URL data st)
     = answer (Client_HTTPClient (self st) (sent st) req)
  /\ self (snd (MakeAPICall P method URL data st)) = self st.
Proof.
  intros method URL data st req H Hd. unfold outgoing in H.
  unfold MakeAPICall, bind, ret, receiver.
  destruct (http.NewRequest _ _ _ _) as [x|]; [|discriminate].
  set (q := http.Header_Add _ _ _) in *.
  assert (q = req) as -> by congruence. clear H.
  destruct (Client_Debug (self st)) as [w|] eqn:Hw.
  - destruct Hd as [Hd | [dump Hd]]; [congruence|]. rewrite Hd.
    destruct (Fprintln w _ st) as [o1 st1] eqn:E1.
    destruct (Fprintln w _ st1) as [o2 st2] eqn:E2.
    pose proof (Fprintln_frame w EmptyString st1) as [F1 F2].
    rewrite E2 in F1, F2. cbn [snd] in F1, F2.
    pose proof (Fprintln_frame w dump st) as [G1 G2].
    rewrite E1 in G1, G2. cbn [snd] in G1, G2.
    unfold Do. rewrite F2, G2.
    destruct (Client_HTTPClient (self st) (sent st) req) as [resp|derr];
      [|cbn [fst snd self]; repeat split; congruence].
    destruct (dumpResponse P resp _) as [resp' st3] eqn:E3.
    match type of E3 with
    | dumpResponse P resp ?s = _ =>
        pose proof (dumpResponse_frame resp s) as [D1 [D2 D3]]
    end.
    rewrite E3 in D1, D2, D3. cbn [fst snd sent self] in D1, D2, D3.
    pose proof (DumpResponse_reads (Response_Write P) resp) as [R1 [R2 R3]].
    rewrite <- D1 in R1, R2, R3.
    pose proof (read_answer resp resp' R1 R2 R3) as HR.
    destruct (ioutil.ReadAll (http.Response_Body resp')) as [res [e|]];
      cbn [fst snd]; repeat split; congruence.
  - unfold Do.
    destruct (Client_HTTPClient (self st) (sent st) req) as [resp|derr];
      [|repeat split; reflexivity].
    pose proof (read_answer resp resp eq_refl eq_refl (fun _ => eq_refl)) as HR.
    destruct (ioutil.ReadAll (http.Response_Body resp)) as [res [e|]];
      cbn [fst snd sent self]; repeat split; congruence.
Qed.

Lemma MakeAPICall_self : forall method URL data st,
  self (snd (MakeAPICall P method URL data st)) = self st.
Proof.
  intros method URL data st.
  destruct (outgoing P (self st) method URL data) as [req|err] eqn:Ho.
  - destruct (Client_Debug (self st)) as [w|] eqn:Hw.
    + destruct (httputil_DumpRequestOut P req) as [dump|derr] eqn:Hdump.
      * apply (MakeAPICall_sent _ _ _ _ _ Ho). right. eauto.
      * rewrite (MakeAPICall_not_dumped _ _ _ _ _ derr Ho);
          [reflexivity | congruence | assumption].
    + apply (MakeAPICall_sent _ _ _ _ _ Ho). left. assumption.
  - rewrite (MakeAPICall_not_built _ _ _ _ _ Ho). reflexivity.
Qed.

End Transport.

Section Operations.

Variable P : Platform.

(** The request that is built has the method, the URL, the payload and the
    two headers the call asks for. *)
Lemma outgoing_shape : forall c method URL data req,
  outgoing P c method URL data = Ok req ->
  method <> EmptyString ->
  http.Request_Method req = method
  /\ http.Request_URL req = Client_URL c ++ "/v1/" ++ URL
  /\ http.Request_Body req = data
  /\ http.Request_Header req
     = [("Authorization", "Bearer " ++ Client_apiKey c);
        ("Content-Type", "application/json")].
Proof.
  intros c method URL data req H Hm. unfold outgoing, http.NewRequest in H.
  destruct (String.eqb_spec method EmptyString) as [|_]; [contradiction|].
  destruct (negb (http.validMethod method)); [discriminate|].
  destruct (url_Parse P _); [discriminate|].
  injection H as <-. repeat split.
Qed.

(** An operation ends in the state its one call of [MakeAPICall] leaves, or
    where it began when the check cannot be encoded. *)
Lemma call_state : forall k st,
  call P k st =
  match payload_of P k with
  | Err _ => st
  | Ok data => snd (MakeAPICall P (method_of k) (path_of k) data st)
  end.
Proof.
  intros k st. destruct k; cbn [call payload_of method_of path_of];
    unfold Create, Update, Delete, Get, bind, ret;
    try (destruct (json.Marshal _ _); [|reflexivity]);
    (destruct (MakeAPICall _ _ _ _ _) as [[[status res] [err|]] st'];
     [reflexivity|]);
    (destruct (negb _); [reflexivity|]);
    try (destruct (json.Decode _ _ _ _)); reflexivity.
Qed.

Lemma method_of_set : forall k, method_of k <> EmptyString.
Proof. destruct k; discriminate. Qed.

End Operations.

(** A call of [MakeAPICall] adds nothing to the requests sent, or the one
    request it has built. *)
Lemma MakeAPICall_sent_cases : forall P method URL data st,
  sent (snd (MakeAPICall P method URL data st)) = sent st
  \/ exists req,
       outgoing P (self st) method URL data = Ok req
       /\ sent (snd (MakeAPICall P method URL data st))
          = (sent st ++ [req])%list.
Proof.
  intros P method URL data st.
  destruct (outgoing P (self st) method URL data) as [req|err] eqn:Ho.
  - destruct (Client_Debug (self st)) as [w|] eqn:Hw.
    + destruct (httputil_DumpRequestOut P req) as [dump|derr] eqn:Hd.
      * right. exists req. split; [reflexivity|].
        apply (MakeAPICall_sent P _ _ _ _ _ Ho). right. eauto.
      * left. rewrite (MakeAPICall_not_dumped P _ _ _ _ _ derr Ho);
          [reflexivity | congruence | assumption].
    + right. exists req. split; [reflexivity|].
      apply (MakeAPICall_sent P _ _ _ _ _ Ho). left. assumption.
  - left. rewrite (MakeAPICall_not_built P _ _ _ _ _ Ho). reflexivity.
Qed.

Lemma not_longer : forall (A : Type) (l : list A) (x : A),
  (l ++ [x])%list <> l.
Proof.
  intros A l x H. apply (f_equal (@List.length A)) in H.
  rewrite length_app in H. cbn in H. lia.
Qed.

(** The request an operation has issued carries its payload. *)
Lemma issued_body : forall P k st data req,
  payload_of P k = Ok data ->
  sent (call P k st) = (sent st ++ [req])%list ->
  http.Request_Body req = data.
Proof.
  intros P k st data req Hp Hs. rewrite call_state, Hp in Hs.
  destruct (MakeAPICall_sent_cases P (method_of k) (path_of k) data st)
    as [Hsame | [req' [Ho Hone]]].
  - rewrite Hsame in Hs. symmetry in Hs. apply not_longer in Hs. contradiction.
  - rewrite Hone in Hs. apply app_inj_tail in Hs as [_ ->].
    apply (outgoing_shape P _ _ _ _ _ Ho (method_of_set k)).
Qed.

(** ** Requests issued (C2, C9) *)

(** C2, as the code has it: an operation hands at most one request to the
    HTTP client, and exactly one when the check can be encoded, the request
    built and, with tracing on, dumped; a request that is issued has the
    method of the operation (POST for Create, GET for Get, PUT for Update,
    DELETE for Delete) and the URL made of the client's base URL, "/v1/" and
    the path ("checks" or "checks/{id}"). *)
Theorem operation_request : forall (P : Platform) (k : Call) (st : State),
  (sent (call P k st) = sent st
   \/ exists req,
        sent (call P k st) = (sent st ++ [req])%list
        /\ http.Request_Method req = method_of k
        /\ http.Request_URL req
           = Client_URL (self st) ++ "/v1/" ++ path_of k)
  /\ (forall data req,
        payload_of P k = Ok data ->
        outgoing P (self st) (method_of k) (path_of k) data = Ok req ->
        dumps P (self st) req ->
        sent (call P k st) = (sent st ++ [req])%list).
Proof.
  intros P k st. rewrite call_state. split.
  - destruct (payload_of P k) as [data|]; [|left; reflexivity].
    destruct (MakeAPICall_sent_cases P (method_of k) (path_of k) data st)
      as [Hsame | [req [Ho Hone]]]; [left; assumption|].
    right. exists req.
    destruct (outgoing_shape P _ _ _ _ _ Ho (method_of_set k)) as [Hm [Hu _]].
    auto.
  - intros data req Hp Ho Hd. rewrite Hp.
    apply (MakeAPICall_sent P _ _ _ _ _ Ho Hd).
Qed.

(** C9: no sequence of Create, Get, Update and Delete calls changes the
    Client struct: API key, base URL, HTTP client and debug writer are after
    the calls what they were before. *)
Theorem client_unchanged : forall (P : Platform) (ks : list Call) (st : State),
  self (calls P ks st) = self st.
Proof.
  intros P ks. unfold calls.
  induction ks as [|k ks IH]; intros st; [reflexivity|].
  cbn [fold_left]. rewrite IH, call_state.
  destruct (payload_of P k); [apply MakeAPICall_self | reflexivity].
Qed.

(** ** Status codes and errors (C4, C5, C6, C7) *)

(** C4: when the call for Create comes back without error but with a status
    other than 201, Create returns no ID and an error that carries the status
    code and the raw response body. *)
Theorem Create_unexpected_status :
  forall (P : Platform) (check : Check) (st st' : State) (data res : string)
         (status : Z),
    json.Marshal (Check_json P) check = Ok data ->
    MakeAPICall P http.MethodPost "checks" data st
    = ((status, res, None), st') ->
    status <> http.StatusCreated ->
    Create P check st
    = ((EmptyString,
        Some (fmt.Errorf "unexpected response status %d: %q"
                [OInt status; OString res])), st').
Proof.
  intros P check st st' data res status Hm Hc Hs.
  unfold Create, bind, ret. rewrite Hm, Hc.
  destruct (Z.eqb_spec status http.StatusCreated); [contradiction|].
  reflexivity.
Qed.

(** C5: when the call for Delete comes back without error, Delete returns a
    nil error exactly when the status is 204, and with any other status an
    error that carries the status code and the response body. *)
Theorem Delete_status :
  forall (P : Platform) (ID : string) (st st' : State) (res : string)
         (status : Z),
    MakeAPICall P http.MethodDelete ("checks/" ++ ID) EmptyString st
    = ((status, res, None), st') ->
    (fst (Delete P ID st) = None <-> status = http.StatusNoContent)
    /\ (status <> http.StatusNoContent ->
        Delete P ID st
        = (Some (fmt.Errorf "unexpected response status %d: %q"
                   [OInt status; OString res]), st')).
Proof.
  intros P ID st st' res status Hc.
  unfold Delete, bind, ret. rewrite Hc.
  destruct (Z.eqb_spec status http.StatusNoContent) as [E|N]; cbn [negb fst].
  - split; [tauto | contradiction].
  - split; [|reflexivity]. split; [discriminate | contradiction].
Qed.

(** C6: a check that cannot be encoded makes Create and Update return the
    error of the encoding at once; the state is left as it was, so nothing
    was handed to the HTTP client. *)
Theorem encoding_failure_before_call :
  forall (P : Platform) (check : Check) (err : error) (st : State),
    json.Marshal (Check_json P) check = Err err ->
    Create P check st = ((EmptyString, Some err), st)
    /\ (forall ID, Update P ID check st = (Some err, st))
    /\ sent (snd (Create P check st)) = sent st
    /\ (forall ID, sent (snd (Update P ID check st)) = sent st).
Proof.
  intros P check err st H. unfold Create, Update, ret. rewrite H.
  repeat split.
Qed.

(** C7: when the HTTP client answers the request of a call (built and, with
    tracing on, dumped) with a response whose body then fails to be read,
    MakeAPICall returns the status code of the response, the empty string
    and the error of the reading. *)
Theorem MakeAPICall_body_unread :
  forall (P : Platform) (method URL data : string) (st : State)
         (req : http.Request) (resp : http.Response) (partial : string)
         (err : error),
    outgoing P (self st) method URL data = Ok req ->
    dumps P (self st) req ->
    Client_HTTPClient (self st) (sent st) req = Ok resp ->
    ioutil.ReadAll (http.Response_Body resp) = (partial, Some err) ->
    fst (MakeAPICall P method URL data st)
    = (http.Response_StatusCode resp, EmptyString, Some err).
Proof.
  intros P method URL data st req resp partial err Ho Hd Hr Hb.
  destruct (MakeAPICall_sent P _ _ _ _ _ Ho Hd) as [_ [Ha _]].
  rewrite Ha, Hr. unfold answer. unfold ioutil.ReadAll in Hb.
  injection Hb as _ Hf. rewrite Hf. reflexivity.
Qed.

(** ** Decoding the [id] of a response (C1, C10) *)

(** Of the keys of [Check], [id] alone reads ID in upper case. *)
Lemma Check_keys_fold : forall n,
  In n Check_keys -> json.foldName n = "ID" -> n = "id".
Proof.
  intros n Hin Hf. unfold Check_keys in Hin. cbn [In] in Hin.
  repeat (destruct Hin as [<- | Hin]; [first [reflexivity | discriminate Hf]|]).
  contradiction.
Qed.

(** A key stands for the field [ID] exactly when [names_id] says so. *)
Lemma resolve_id : forall key,
  json.resolve Check_keys (json.unquote key) = Some "id"
  <-> names_id key = true.
Proof.
  intros key. unfold names_id, json.resolve.
  set (k := json.unquote key).
  destruct (find (String.eqb k) Check_keys) as [n|] eqn:Hexact.
  - apply find_some in Hexact as [Hin Heq].
    apply String.eqb_eq in Heq. subst n. split.
    + intros H. injection H as ->. reflexivity.
    + intros H. apply String.eqb_eq in H.
      f_equal. apply Check_keys_fold; assumption.
  - destruct (String.eqb_spec (json.foldName k) "ID") as [E|N].
    + split; [reflexivity|]. intros _.
      unfold Check_keys. cbn [find]. rewrite E. reflexivity.
    + split; [|discriminate]. intros H.
      apply find_some in H as [_ H]. apply String.eqb_eq in H.
      exfalso. apply N. rewrite <- H. reflexivity.
Qed.

(** What decoding leaves in [ID] is the string of the last member keyed
    [id] that is not [null], when that is a string. *)
Lemma into_last_id : forall ms cur acc lit,
  (forall l, acc = Some (json.JString l) -> cur = json.unquote l) ->
  fold_left
    (fun cur m =>
       if names_id (fst m)
       then match snd m with
            | json.JNull => cur
            | v => Some v
            end
       else cur)
    ms acc = Some (json.JString lit) ->
  json.into Check_keys ms "id" json.string_ cur = json.unquote lit.
Proof.
  unfold json.into.
  induction ms as [|[k v] ms IH]; intros cur acc lit Hinv Hlast.
  - cbn in *. apply Hinv. assumption.
  - cbn [fold_left fst snd] in *.
    destruct (names_id k) eqn:Hk.
    + apply resolve_id in Hk. rewrite Hk. cbn [String.eqb Ascii.eqb Bool.eqb].
      eapply IH; [|exact Hlast].
      intros l Hl. destruct v; try discriminate Hl.
      * cbn. apply Hinv. assumption.
      * injection Hl as ->. reflexivity.
    + destruct (json.resolve Check_keys (json.unquote k)) as [n|] eqn:Hr.
      * destruct (String.eqb_spec n "id") as [->|_].
        -- apply resolve_id in Hr. congruence.
        -- eapply IH; eassumption.
      * eapply IH; eassumption.
Qed.

(** Members keyed [id] that hold [null] or the empty string leave [ID]
    empty. *)
Lemma into_no_id : forall ms,
  (forall k v, In (k, v) ms -> names_id k = true ->
               v = json.JNull \/ v = json.JString EmptyString) ->
  json.into Check_keys ms "id" json.string_ EmptyString = EmptyString.
Proof.
  unfold json.into.
  induction ms as [|[k v] ms IH]; intros H; [reflexivity|].
  cbn [fold_left fst snd].
  assert (Hrest : forall k' v', In (k', v') ms -> names_id k' = true ->
                                v' = json.JNull \/ v' = json.JString EmptyString)
    by (intros; eapply H; [right|]; eassumption).
  destruct (json.resolve Check_keys (json.unquote k)) as [n|] eqn:Hr;
    [|auto].
  destruct (String.eqb_spec n "id") as [->|_]; [|auto].
  apply resolve_id in Hr.
  destruct (H k v (or_introl eq_refl) Hr) as [-> | ->]; cbn; auto.
Qed.

(** A body that decodes, read as the object it is. *)
Lemma Decode_object : forall layoutParse res ms result,
  json.Decode layoutParse (json_Check layoutParse) res
    (json.zero (json_Check layoutParse)) = Ok result ->
  json.readValue res = Ok (json.JObject ms) ->
  Check_ID result
  = json.into Check_keys ms "id" json.string_ EmptyString.
Proof.
  intros layoutParse res ms result Hd Hr. unfold json.Decode in Hd.
  rewrite Hr in Hd.
  destruct (json.check _ _ _ _ _ _) as [[e|]|e]; try discriminate.
  injection Hd as <-. reflexivity.
Qed.

(** C1, as the code has it: when the call for Create comes back with status
    201 and a body that decodes as a Check (a JSON object whose members fit
    the fields they name), Create returns, with a nil error, the string of
    the body's [id] member: the last member keyed [id], letter case aside,
    that is not null. *)
Theorem Create_returns_id :
  forall (P : Platform) (check : Check) (st st' : State) (data res : string)
         (result : Check) (ms : list (string * json.value)) (lit : string),
    json.Marshal (Check_json P) check = Ok data ->
    MakeAPICall P http.MethodPost "checks" data st
    = ((http.StatusCreated, res, None), st') ->
    json.Decode (time_Parse P) (Check_json P) res (json.zero (Check_json P))
    = Ok result ->
    json.readValue res = Ok (json.JObject ms) ->
    last_id ms = Some (json.JString lit) ->
    Create P check st = ((json.unquote lit, None), st').
Proof.
  intros P check st st' data res result ms lit Hm Hc Hd Hr Hl.
  unfold Create, bind, ret. rewrite Hm, Hc. cbn [Z.eqb negb http.StatusCreated Pos.eqb].
  rewrite Hd. rewrite (Decode_object _ _ _ _ Hd Hr).
  rewrite (into_last_id ms EmptyString None lit); [reflexivity| |exact Hl].
  intros l H. discriminate H.
Qed.

(** C10, as the code has it: when the call for Create comes back with status
    201 and a body that decodes as a Check, and no member of the body is
    keyed [id], letter case aside, or those that are hold null or the empty
    string, Create returns the empty string and a nil error. *)
Theorem Create_without_id :
  forall (P : Platform) (check : Check) (st st' : State) (data res : string)
         (result : Check) (ms : list (string * json.value)),
    json.Marshal (Check_json P) check = Ok data ->
    MakeAPICall P http.MethodPost "checks" data st
    = ((http.StatusCreated, res, None), st') ->
    json.Decode (time_Parse P) (Check_json P) res (json.zero (Check_json P))
    = Ok result ->
    json.readValue res = Ok (json.JObject ms) ->
    (forall k v, In (k, v) ms -> names_id k = true ->
                 v = json.JNull \/ v = json.JString EmptyString) ->
    Create P check st = ((EmptyString, None), st').
Proof.
  intros P check st st' data res result ms Hm Hc Hd Hr Hid.
  unfold Create, bind, ret. rewrite Hm, Hc. cbn [Z.eqb negb http.StatusCreated Pos.eqb].
  rewrite Hd. rewrite (Decode_object _ _ _ _ Hd Hr).
  rewrite (into_no_id ms Hid). reflexivity.
Qed.

(** ** What goes over the wire (C8) *)

(** The encoder writes a field that is not dropped first. *)
Lemma encode_fields_head :
  forall (S : Type) (f : json.field S) (fs : list (json.field S)) (s : S)
         (v : json.value) (ms : list (string * json.value)),
    json.omitEmpty f = false ->
    json.fenc f s = Ok v ->
    json.encode_fields (f :: fs) s = Ok ms ->
    exists rest, ms = (json.fname f, v) :: rest.
Proof.
  intros S f fs s v ms Ho Hv H. cbn [json.encode_fields] in H.
  rewrite Ho, Hv in H. cbn [andb] in H.
  destruct (json.encode_fields fs s) as [rest|]; [|discriminate].
  injection H as <-. exists rest. reflexivity.
Qed.

Lemma enc_struct :
  forall (S : Type) name (fields : list (json.field S)) zero build (s : S),
    json.enc (json.struct_ name fields zero build) s
    = match json.encode_fields fields s with
      | Ok ms => Ok (json.JObject ms)
      | Err e => Err e
      end.
Proof. reflexivity. Qed.

(** C8, as the code has it: Create and Update send a Check as the caller
    gave it.  The JSON object they put in the request body always starts
    with an [id] member, which holds the ID of the Check as given, the empty
    string when the ID is empty. *)
Theorem wire_id_as_given :
  forall (P : Platform) (check : Check) (data : string),
    json.Marshal (Check_json P) check = Ok data ->
    (exists ms,
       data = json.encode
                (json.JObject
                   (("id", json.JString (json.quote (Check_ID check))) :: ms)))
    /\ (forall st ID req,
          sent (snd (Create P check st)) = (sent st ++ [req])%list
          \/ sent (snd (Update P ID check st)) = (sent st ++ [req])%list ->
          http.Request_Body req = data).
Proof.
  intros P check data Hm. split.
  - unfold json.Marshal, Check_json, json_Check in Hm.
    rewrite enc_struct in Hm.
    destruct (json.encode_fields _ check) as [ms|] eqn:He; [|discriminate].
    injection Hm as <-.
    apply encode_fields_head
      with (v := json.JString (json.quote (Check_ID check))) in He;
      [|reflexivity|reflexivity].
    destruct He as [rest ->]. exists rest. reflexivity.
  - intros st ID req [H | H].
    + exact (issued_body P (CallCreate check) st data req Hm H).
    + exact (issued_body P (CallUpdate ID check) st data req Hm H).
Qed.

(** ** Tracing (C3) *)


(** ** The claims at concrete inputs *)

(** C1 at the exchange of the package's test: POST /v1/checks, status 201,
    a body with the ID the test wants. *)
Lemma Create_returns_id_witness :
  let st := start (exampleClient api (answering 201 createdBody) None) in
  Create examplePlatform testCheck st
  = ((wantID, None),
     snd (MakeAPICall examplePlatform http.MethodPost "checks" testWire st)).
Proof.
  intro st.
  apply (Create_returns_id examplePlatform testCheck st _ testWire createdBody
           (match json.Decode (time_Parse examplePlatform)
                    (Check_json examplePlatform) createdBody
                    (json.zero (Check_json examplePlatform)) with
            | Ok r => r
            | Err _ => json.zero (Check_json examplePlatform)
            end)
           (match json.readValue createdBody with
            | Ok (json.JObject ms) => ms
            | _ => []
            end)
           wantID);
    vm_compute; reflexivity.
Defined.

(** C1 as stated fails: the call comes back with status 201 and a JSON
    object that has an [id] member, yet Create returns no ID and an error,
    because another member does not fit its field. *)
Lemma Create_id_beside_mistyped_member :
  let st := start (exampleClient api (answering 201 mistypedBody) None) in
  fst (MakeAPICall examplePlatform http.MethodPost "checks" testWire st)
  = (201, mistypedBody, None)
  /\ json.readValue mistypedBody
     = Ok (json.JObject [("id", json.JString "abc");
                         ("frequency", json.JString "often")])
  /\ fst (Create examplePlatform testCheck st)
     = (EmptyString,
        Some (fmt.Errorf "decoding error for data %s: %v"
                [OString mistypedBody;
                 OError (json_UnmarshalTypeError "string" "int" "Check"
                           "frequency")])).
Proof. vm_compute. repeat split. Qed.

(** C2 at a Delete: one request, DELETE to the base URL, "/v1/" and
    "checks/{id}". *)
Lemma operation_request_witness :
  let st := start (exampleClient api (answering 204 EmptyString) None) in
  sent (call examplePlatform (CallDelete wantID) st)
  = [ {| http.Request_Method := "DELETE";
         http.Request_URL :=
           "https://api.checklyhq.com/v1/checks/73d29e72-6540-4bb5-967e-e07fa2c9465e";
         http.Request_Header := [("Authorization", "Bearer dummy");
                                 ("Content-Type", "application/json")];
         http.Request_Body := EmptyString |} ].
Proof.
  intro st.
  apply (proj2 (operation_request examplePlatform (CallDelete wantID) st)
           EmptyString).
  - reflexivity.
  - vm_compute; reflexivity.
  - left; reflexivity.
Defined.

(** C2 as stated fails: a Create whose check cannot be encoded and a Get
    whose ID has a line feed in it issue no request at all. *)
Lemma operations_without_request :
  let st := start (exampleClient api (answering 201 createdBody) None) in
  sent (call examplePlatform (CallCreate farCheck) st) = []
  /\ fst (Create examplePlatform farCheck st)
     = (EmptyString,
        Some (json_MarshalerError "time.Time"
                (errors_New
                   "Time.MarshalJSON: year outside of range [0,9999]")))
  /\ sent (call examplePlatform (CallGet newline) st) = []
  /\ snd (fst (Get examplePlatform newline st))
     = Some (fmt.Errorf "failed to create HTTP request: %v"
               [OError (errors_New
                          "net/url: invalid control character in URL")]).
Proof. vm_compute. repeat split. Qed.



(** C4 at the answer of the server of the package's test for Create, which
    is 200. *)
Lemma Create_unexpected_status_witness :
  let st := start (exampleClient api (answering 200 createdBody) None) in
  Create examplePlatform testCheck st
  = ((EmptyString,
      Some (fmt.Errorf "unexpected response status %d: %q"
              [OInt 200; OString createdBody])),
     snd (MakeAPICall examplePlatform http.MethodPost "checks" testWire st)).
Proof.
  intro st.
  apply (Create_unexpected_status examplePlatform testCheck st _ testWire
           createdBody 200).
  - vm_compute; reflexivity.
  - vm_compute; reflexivity.
  - unfold http.StatusCreated. lia.
Defined.

(** C5 at a Delete answered 204 and at one answered 404. *)
Lemma Delete_status_witness :
  let gone := start (exampleClient api (answering 204 EmptyString) None) in
  let missing := start (exampleClient api (answering 404 "Not Found") None) in
  fst (Delete examplePlatform wantID gone) = None
  /\ fst (Delete examplePlatform wantID missing)
     = Some (fmt.Errorf "unexpected response status %d: %q"
               [OInt 404; OString "Not Found"]).
Proof.
  intros gone missing. split.
  - apply (proj1 (Delete_status examplePlatform wantID gone
                    (snd (Delete examplePlatform wantID gone))
                    EmptyString 204 ltac:(vm_compute; reflexivity))).
    reflexivity.
  - rewrite (proj2 (Delete_status examplePlatform wantID missing
                      (snd (Delete examplePlatform wantID missing))
                      "Not Found" 404 ltac:(vm_compute; reflexivity))).
    + reflexivity.
    + unfold http.StatusNoContent. lia.
Defined.

(** C6 at a check created in the year 10000. *)
Lemma encoding_failure_before_call_witness :
  let st := start (exampleClient api (answering 201 createdBody) None) in
  let err := json_MarshalerError "time.Time"
               (errors_New "Time.MarshalJSON: year outside of range [0,9999]") in
  Create examplePlatform farCheck st = ((EmptyString, Some err), st)
  /\ Update examplePlatform wantID farCheck st = (Some err, st).
Proof.
  intros st err.
  destruct (encoding_failure_before_call examplePlatform farCheck err st
              ltac:(vm_compute; reflexivity)) as [HC [HU _]].
  split; [exact HC | exact (HU wantID)].
Defined.

(** C7 at a connection that breaks after the status line and one byte of the
    body, with tracing on. *)
Lemma MakeAPICall_body_unread_witness :
  let st := start (exampleClient api (breaking 200 io_ErrUnexpectedEOF)
                     (Some stdout)) in
  fst (MakeAPICall examplePlatform http.MethodGet "checks/1" EmptyString st)
  = (200, EmptyString, Some io_ErrUnexpectedEOF).
Proof.
  intro st.
  apply (MakeAPICall_body_unread examplePlatform http.MethodGet "checks/1"
           EmptyString st
           {| http.Request_Method := "GET";
              http.Request_URL := "https://api.checklyhq.com/v1/checks/1";
              http.Request_Header := [("Authorization", "Bearer dummy");
                                      ("Content-Type", "application/json")];
              http.Request_Body := EmptyString |}
           {| http.Response_StatusCode := 200;
              http.Response_Body :=
                {| io.content := "{";
                   io.failure := Some io_ErrUnexpectedEOF |} |}
           "{" io_ErrUnexpectedEOF).
  - vm_compute; reflexivity.
  - right. eexists. vm_compute; reflexivity.
  - reflexivity.
  - reflexivity.
Defined.

(** C8 at a check whose ID the caller has set. *)
Lemma wire_id_as_given_witness :
  exists ms,
    testWire
    = json.encode
        (json.JObject (("id", json.JString EmptyString) :: ms)).
Proof.
  exact (proj1 (wire_id_as_given examplePlatform testCheck testWire
                  ltac:(vm_compute; reflexivity))).
Defined.

(** C8 as stated fails: the JSON that Create sends for the check of the
    package's tests has an [id] member and both timestamps, and an ID that
    the caller has set goes over the wire. *)
Lemma server_fields_on_the_wire :
  json.Marshal (Check_json examplePlatform) testCheck = Ok testWire
  /\ exists ms,
       json.enc (Check_json examplePlatform) (exampleCheck "abc" time.zero)
       = Ok (json.JObject ms)
       /\ json.lookup "id" ms = Some (json.JString "abc")
       /\ json.lookup "created_at" ms
          = Some (json.JString "0001-01-01T00:00:00Z")
       /\ json.lookup "updated_at" ms
          = Some (json.JString "0001-01-01T00:00:00Z").
Proof.
  split; [vm_compute; reflexivity|].
  eexists. split; [vm_compute; reflexivity|].
  vm_compute. repeat split.
Qed.

(** C10 at a body whose [id] is null. *)
Lemma Create_without_id_witness :
  let st := start (exampleClient api (answering 201 nullIdBody) None) in
  Create examplePlatform testCheck st
  = ((EmptyString, None),
     snd (MakeAPICall examplePlatform http.MethodPost "checks" testWire st)).
Proof.
  intro st.
  apply (Create_without_id examplePlatform testCheck st _ testWire nullIdBody
           (match json.Decode (time_Parse examplePlatform)
                    (Check_json examplePlatform) nullIdBody
                    (json.zero (Check_json examplePlatform)) with
            | Ok r => r
            | Err _ => json.zero (Check_json examplePlatform)
            end)
           [("name", json.JString "test"); ("id", json.JNull)]).
  - vm_compute; reflexivity.
  - vm_compute; reflexivity.
  - vm_compute; reflexivity.
  - vm_compute; reflexivity.
  - intros k v [H | [H | []]] Hk; injection H as <- <-.
    + vm_compute in Hk. discriminate Hk.
    + left. reflexivity.
Defined.

(** C10 as stated fails: the body decodes and has no member [id], yet
    Create returns an ID, that of the member [ID]. *)
Lemma Create_id_keyed_in_upper_case :
  let st := start (exampleClient api (answering 201 upperBody) None) in
  json.readValue upperBody = Ok (json.JObject [("ID", json.JString "abc")])
  /\ json.lookup "id" [("ID", json.JString "abc")] = None
  /\ is_ok (json.Decode (time_Parse examplePlatform)
              (Check_json examplePlatform) upperBody
              (json.zero (Check_json examplePlatform))) = true
  /\ fst (Create examplePlatform testCheck st) = ("abc", None).
Proof. vm_compute. repeat split. Qed.

(* ================================================================= *)
(** ** Further properties of the operations *)

Lemma MakeAPICall_fst : forall P method URL data st,
  fst (MakeAPICall P method URL data st)
  = call_result P (self st) (sent st) method URL data.
Proof.
  intros P method URL data st. unfold call_result.
  destruct (outgoing P (self st) method URL data) as [req|err] eqn:Ho.
  - destruct (Client_Debug (self st)) as [w|] eqn:Hw.
    + destruct (httputil_DumpRequestOut P req) as [dump|derr] eqn:Hd.
      * apply (MakeAPICall_sent P _ _ _ _ _ Ho). right. eauto.
      * rewrite (MakeAPICall_not_dumped P _ _ _ _ _ derr Ho);
          [reflexivity | congruence | assumption].
    + apply (MakeAPICall_sent P _ _ _ _ _ Ho). left. assumption.
  - rewrite (MakeAPICall_not_built P _ _ _ _ _ Ho). reflexivity.
Qed.

(** The error of an operation, from its payload and the call it makes. *)
Lemma call_error_spec : forall P k st,
  call_error P k st =
  match payload_of P k with
  | Err err => Some err
  | Ok data =>
      match fst (MakeAPICall P (method_of k) (path_of k) data st) with
      | (_, _, Some err) => Some err
      | (status, res, None) => verdict P k status res
      end
  end.
Proof.
  intros P k st. unfold verdict.
  destruct k; cbn [call_error payload_of method_of path_of expected_status
                   reads_check];
    unfold Create, Update, Delete, Get, bind, ret;
    try (destruct (json.Marshal _ _); [|reflexivity]);
    (destruct (MakeAPICall _ _ _ _ _) as [[[status res] [err|]] st'];
     [reflexivity|]); cbn [fst];
    (destruct (negb _); [reflexivity|]);
    try (destruct (json.Decode _ _ _ _)); reflexivity.
Qed.

Lemma call_self : forall P k st, self (call P k st) = self st.
Proof.
  intros P k st. rewrite call_state.
  destruct (payload_of P k); [apply MakeAPICall_self | reflexivity].
Qed.

(** X1: an operation returns a nil error exactly when its check was
    encoded, its request built and (with tracing on) dumped, the HTTP client
    answered with the status the operation expects (201 for Create, 200 for
    Get and Update, 204 for Delete), the body was read to its end and, for
    all but Delete, decoded as a Check. *)
Theorem operation_succeeds : forall (P : Platform) (k : Call) (st : State),
  call_error P k st = None <->
  exists data req resp,
    payload_of P k = Ok data
    /\ outgoing P (self st) (method_of k) (path_of k) data = Ok req
    /\ dumps P (self st) req
    /\ Client_HTTPClient (self st) (sent st) req = Ok resp
    /\ io.failure (http.Response_Body resp) = None
    /\ http.Response_StatusCode resp = expected_status k
    /\ (reads_check k = true ->
        is_ok (json.Decode (time_Parse P) (Check_json P)
                 (io.content (http.Response_Body resp))
                 (json.zero (Check_json P))) = true).
Proof.
  intros P k st. rewrite call_error_spec. split.
  - destruct (payload_of P k) as [data|]; [|discriminate].
    rewrite MakeAPICall_fst. unfold call_result.
    destruct (outgoing P (self st) (method_of k) (path_of k) data)
      as [req|] eqn:Ho; [|discriminate].
    intros H. exists data, req.
    assert (Hd : dumps P (self st) req
                 /\ match answer (Client_HTTPClient (self st) (sent st) req)
                    with
                    | (_, _, Some err) => Some err
                    | (status, res, None) => verdict P k status res
                    end = None).
    { destruct (Client_Debug (self st)) eqn:Hw.
      - destruct (httputil_DumpRequestOut P req) eqn:Hdump;
          [|discriminate]. split; [right; eauto | assumption].
      - split; [left; assumption | assumption]. }
    destruct Hd as [Hd Ha]. clear H. unfold answer in Ha.
    destruct (Client_HTTPClient (self st) (sent st) req) as [resp|];
      [|discriminate].
    exists resp.
    destruct (io.failure (http.Response_Body resp)); [discriminate|].
    unfold verdict in Ha.
    destruct (Z.eqb_spec (http.Response_StatusCode resp) (expected_status k));
      [|discriminate]. cbn [negb] in Ha.
    repeat split; try assumption. intros Hr. rewrite Hr in Ha.
    destruct (json.Decode _ _ _ _); [reflexivity | discriminate].
  - intros [data [req [resp [Hp [Ho [Hd [Hr [Hf [Hs Hdec]]]]]]]]].
    rewrite Hp.
    destruct (MakeAPICall_sent P _ _ _ _ _ Ho Hd) as [_ [-> _]].
    rewrite Hr. unfold answer. rewrite Hf. unfold verdict.
    rewrite Hs, Z.eqb_refl. cbn [negb].
    destruct (reads_check k); [|reflexivity].
    specialize (Hdec eq_refl).
    destruct (json.Decode _ _ _ _); [reflexivity | discriminate].
Qed.

(** X2: when the call an operation makes comes back without error, the
    operation returns an error that carries the status code and the body if
    the status is not the one it expects; with that status, Create, Get and
    Update return an error that carries the body and the cause if the body
    does not decode as a Check, and no error if it does; Delete returns no
    error. *)
Theorem operation_error :
  forall (P : Platform) (k : Call) (st st' : State) (data res : string)
         (status : Z),
    payload_of P k = Ok data ->
    MakeAPICall P (method_of k) (path_of k) data st
    = ((status, res, None), st') ->
    (status <> expected_status k ->
     call_error P k st
     = Some (fmt.Errorf "unexpected response status %d: %q"
               [OInt status; OString res]))
    /\ (status = expected_status k -> reads_check k = false ->
        call_error P k st = None)
    /\ (status = expected_status k -> reads_check k = true ->
        call_error P k st
        = match json.Decode (time_Parse P) (Check_json P) res
                  (json.zero (Check_json P)) with
          | Err err =>
              Some (fmt.Errorf "decoding error for data %s: %v"
                      [OString res; OError err])
          | Ok _ => None
          end).
Proof.
  intros P k st st' data res status Hp Hc.
  rewrite call_error_spec, Hp, Hc. cbn [fst]. unfold verdict.
  destruct (Z.eqb_spec status (expected_status k)) as [E|N]; cbn [negb].
  - split; [contradiction|]. split; intros _ ->; reflexivity.
  - split; [reflexivity|]. split; contradiction.
Qed.

(** X3: an error never comes with a value: with a non-nil error Create
    returns the empty ID and Get the zero Check, whatever was decoded. *)
Theorem no_value_with_error : forall (P : Platform) (st : State),
  (forall check,
     snd (fst (Create P check st)) <> None ->
     fst (fst (Create P check st)) = EmptyString)
  /\ (forall ID,
        snd (fst (Get P ID st)) <> None ->
        fst (fst (Get P ID st)) = json.zero (Check_json P)).
Proof.
  intros P st. split.
  - intros check. unfold Create, bind, ret.
    destruct (json.Marshal _ _); [|reflexivity].
    destruct (MakeAPICall _ _ _ _ _) as [[[status res] [err|]] st'];
      [reflexivity|].
    destruct (negb _); [reflexivity|].
    destruct (json.Decode _ _ _ _); [|reflexivity].
    cbn [fst snd]. congruence.
  - intros ID. unfold Get, bind, ret.
    destruct (MakeAPICall _ _ _ _ _) as [[[status res] [err|]] st'];
      [reflexivity|].
    destruct (negb _); [reflexivity|].
    destruct (json.Decode _ _ _ _); [|reflexivity].
    cbn [fst snd]. congruence.
Qed.

(** A key stands for a field exactly when the two read the same, letter case
    aside, provided no other field reads like that. *)
Lemma resolve_keyed : forall keys n key,
  In n keys ->
  (forall m, In m keys -> json.foldName m = json.foldName n -> m = n) ->
  json.resolve keys (json.unquote key) = Some n <-> keyed n key = true.
Proof.
  intros keys n key Hin Hone. unfold keyed, json.resolve.
  set (k := json.unquote key).
  destruct (find (String.eqb k) keys) as [m|] eqn:Hexact.
  - apply find_some in Hexact as [Hm Heq]. apply String.eqb_eq in Heq.
    subst m. split.
    + intros H. injection H as ->. apply String.eqb_refl.
    + intros H. apply String.eqb_eq in H. f_equal. auto.
  - destruct (String.eqb_spec (json.foldName k) (json.foldName n)) as [E|N].
    + split; [reflexivity|]. intros _.
      destruct (find (fun m => String.eqb (json.foldName m) (json.foldName k))
                  keys) as [m|] eqn:Hfold.
      * apply find_some in Hfold as [Hm Heq]. apply String.eqb_eq in Heq.
        f_equal. apply Hone; congruence.
      * apply find_none with (x := n) in Hfold; [|assumption].
        rewrite E, String.eqb_refl in Hfold. discriminate.
    + split; [|discriminate]. intros H.
      apply find_some in H as [_ H]. apply String.eqb_eq in H.
      exfalso. apply N. congruence.
Qed.

(** What decoding leaves in a field, from the members keyed for it. *)
Lemma into_keyed : forall (T : Type) (c : json.codec T) keys n,
  In n keys ->
  (forall m, In m keys -> json.foldName m = json.foldName n -> m = n) ->
  forall ms old,
    json.into keys ms n c old
    = fold_left (fun cur m => json.dec c (snd m) cur)
        (filter (fun m => keyed n (fst m)) ms) old.
Proof.
  intros T c keys n Hin Hone. unfold json.into.
  induction ms as [|[k v] ms IH]; intros old; [reflexivity|].
  cbn [fold_left filter fst snd].
  destruct (keyed n k) eqn:Hk.
  - apply (resolve_keyed keys n k Hin Hone) in Hk. rewrite Hk.
    rewrite String.eqb_refl. cbn [fold_left snd]. apply IH.
  - destruct (json.resolve keys (json.unquote k)) as [n'|] eqn:Hr;
      [|apply IH].
    destruct (String.eqb_spec n' n) as [->|_]; [|apply IH].
    apply (resolve_keyed keys n k Hin Hone) in Hr. congruence.
Qed.

Ltac one_key :=
  let m := fresh "m" in
  let Hin := fresh "Hin" in
  let Hf := fresh "Hf" in
  intros m Hin Hf; cbn [In] in Hin;
  repeat (destruct Hin as [<- | Hin];
          [first [reflexivity | cbv in Hf; discriminate Hf]|]);
  contradiction.

Lemma Check_request_key : forall m,
  In m Check_keys -> json.foldName m = json.foldName "request" ->
  m = "request".
Proof. unfold Check_keys. one_key. Qed.

Lemma Request_url_key : forall m,
  In m Request_keys -> json.foldName m = json.foldName "url" -> m = "url".
Proof. unfold Request_keys. one_key. Qed.

(** X4: when the call for Get comes back with status 200 and a body that
    decodes as a Check, Get returns the decoded Check, and the URL of its
    request is the string the body gives: that of the [url] member of its
    [request] member, letter case of the keys aside. *)
Theorem Get_request_url :
  forall (P : Platform) (ID : string) (st st' : State) (res : string)
         (check : Check) (ms rs : list (string * json.value))
         (k k' lit : string),
    MakeAPICall P http.MethodGet ("checks/" ++ ID) EmptyString st
    = ((http.StatusOK, res, None), st') ->
    json.Decode (time_Parse P) (Check_json P) res (json.zero (Check_json P))
    = Ok check ->
    json.readValue res = Ok (json.JObject ms) ->
    filter (fun m => keyed "request" (fst m)) ms = [(k, json.JObject rs)] ->
    filter (fun m => keyed "url" (fst m)) rs = [(k', json.JString lit)] ->
    Get P ID st = ((check, None), st')
    /\ Request_URL (Check_Request check) = json.unquote lit.
Proof.
  intros P ID st st' res check ms rs k k' lit Hc Hd Hr Hreq Hurl. split.
  - unfold Get, bind, ret. rewrite Hc. cbn [negb Z.eqb http.StatusOK Pos.eqb].
    rewrite Hd. reflexivity.
  - unfold json.Decode in Hd. rewrite Hr in Hd.
    destruct (json.check _ _ _ _ _ _) as [[e|]|e]; try discriminate.
    injection Hd as <-.
    change (Request_URL
              (json.into Check_keys ms "request" json_Request
                 (json.zero json_Request)) = json.unquote lit).
    rewrite (into_keyed Request json_Request Check_keys "request");
      [|unfold Check_keys; cbn; tauto | exact Check_request_key].
    rewrite Hreq. cbn [fold_left snd].
    change (json.into Request_keys rs "url" json.string_ EmptyString
            = json.unquote lit).
    rewrite (into_keyed string json.string_ Request_keys "url");
      [|unfold Request_keys; cbn; tauto | exact Request_url_key].
    rewrite Hurl. reflexivity.
Qed.

(** X5: a request that an operation has issued carries the API key as a
    bearer token in its Authorization header, the JSON content type, and as
    body the payload of the operation: the encoded check for Create and
    Update, nothing for Get and Delete. *)
Theorem issued_request_content :
  forall (P : Platform) (k : Call) (st : State) (req : http.Request),
    sent (call P k st) = (sent st ++ [req])%list ->
    http.Request_Header req
    = [("Authorization", "Bearer " ++ Client_apiKey (self st));
       ("Content-Type", "application/json")]
    /\ payload_of P k = Ok (http.Request_Body req).
Proof.
  intros P k st req Hs. rewrite call_state in Hs.
  destruct (payload_of P k) as [data|] eqn:Hp.
  - destruct (MakeAPICall_sent_cases P (method_of k) (path_of k) data st)
      as [Hsame | [req' [Ho Hone]]].
    + rewrite Hsame in Hs. symmetry in Hs. apply not_longer in Hs.
      contradiction.
    + rewrite Hone in Hs. apply app_inj_tail in Hs as [_ ->].
      destruct (outgoing_shape P _ _ _ _ _ Ho (method_of_set k))
        as [_ [_ [Hb Hh]]].
      split; congruence.
  - symmetry in Hs. apply not_longer in Hs. contradiction.
Qed.

(** X6: once the request is built (and, with tracing on, dumped),
    MakeAPICall hands it to the HTTP client, once.  When the client fails,
    the call returns status 0, an empty body and an error that wraps the
    failure; when it answers and the body is read to its end, the call
    returns the status code and the body as they came, whatever the status,
    and a nil error. *)
Theorem MakeAPICall_answer :
  forall (P : Platform) (method URL data : string) (st : State)
         (req : http.Request),
    outgoing P (self st) method URL data = Ok req ->
    dumps P (self st) req ->
    sent (snd (MakeAPICall P method URL data st)) = (sent st ++ [req])%list
    /\ (forall err,
          Client_HTTPClient (self st) (sent st) req = Err err ->
          fst (MakeAPICall P method URL data st)
          = (0, EmptyString,
             Some (fmt.Errorf "HTTP request failed: %v" [OError err])))
    /\ (forall resp,
          Client_HTTPClient (self st) (sent st) req = Ok resp ->
          io.failure (http.Response_Body resp) = None ->
          fst (MakeAPICall P method URL data st)
          = (http.Response_StatusCode resp,
             io.content (http.Response_Body resp), None)).
Proof.
  intros P method URL data st req Ho Hd.
  destruct (MakeAPICall_sent P _ _ _ _ _ Ho Hd) as [Hs [Ha _]].
  split; [exact Hs|]. rewrite Ha. split.
  - intros err ->. reflexivity.
  - intros resp -> Hf. unfold answer. rewrite Hf. reflexivity.
Qed.

(** X7: an empty method is GET: MakeAPICall with no method does, returns
    and sends what it does with GET. *)
Theorem MakeAPICall_empty_method :
  forall (P : Platform) (URL data : string) (st : State),
    MakeAPICall P EmptyString URL data st
    = MakeAPICall P http.MethodGet URL data st.
Proof.
  intros P URL data st. unfold MakeAPICall, bind, receiver.
  replace (http.NewRequest (url_Parse P) EmptyString
             (Client_URL (self st) ++ "/v1/" ++ URL) data)
    with (http.NewRequest (url_Parse P) http.MethodGet
            (Client_URL (self st) ++ "/v1/" ++ URL) data)
    by reflexivity.
  reflexivity.
Qed.

(** X8: a request that cannot be built is not sent.  With a method that is
    no HTTP token, or a URL that does not parse, MakeAPICall returns status
    0, an empty body and an error that wraps the cause, and leaves the
    requests sent and the debug output as they were. *)
Theorem MakeAPICall_request_not_built :
  forall (P : Platform) (method URL data : string) (st : State),
    (method <> EmptyString ->
     http.validMethod method = false ->
     MakeAPICall P method URL data st
     = ((0, EmptyString,
         Some (fmt.Errorf "failed to create HTTP request: %v"
                 [OError (fmt.Errorf "net/http: invalid method %q"
                            [OString method])])), st))
    /\ (forall err,
          http.validMethod method = true ->
          url_Parse P (Client_URL (self st) ++ "/v1/" ++ URL) = Some err ->
          MakeAPICall P method URL data st
          = ((0, EmptyString,
              Some (fmt.Errorf "failed to create HTTP request: %v"
                      [OError err])), st)).
Proof.
  intros P method URL data st. split.
  - intros Hm Hv. apply MakeAPICall_not_built.
    unfold outgoing, http.NewRequest.
    destruct (String.eqb_spec method EmptyString); [contradiction|].
    rewrite Hv. reflexivity.
  - intros err Hv Hu. apply MakeAPICall_not_built.
    unfold outgoing, http.NewRequest.
    destruct (String.eqb_spec method EmptyString) as [->|_];
      [discriminate Hv|].
    rewrite Hv, Hu. reflexivity.
Qed.

Lemma MakeAPICall_untraced : forall P method URL data st,
  Client_Debug (self st) = None ->
  written (snd (MakeAPICall P method URL data st)) = written st.
Proof.
  intros P method URL data st Hw.
  unfold MakeAPICall, bind, ret, receiver, Do. rewrite Hw.
  destruct (http.NewRequest _ _ _ _); [|reflexivity].
  destruct (Client_HTTPClient _ _ _) as [resp|]; [|reflexivity].
  destruct (ioutil.ReadAll _) as [res [err|]]; reflexivity.
Qed.

(** X9: with tracing off, nothing is written to the debug output, whatever
    calls are made. *)
Theorem untraced_writes_nothing :
  forall (P : Platform) (ks : list Call) (st : State),
    Client_Debug (self st) = None ->
    written (calls P ks st) = written st.
Proof.
  intros P ks. unfold calls.
  induction ks as [|k ks IH]; intros st Hw; [reflexivity|].
  cbn [fold_left]. rewrite IH.
  - rewrite call_state. destruct (payload_of P k); [|reflexivity].
    apply MakeAPICall_untraced. assumption.
  - rewrite call_self. assumption.
Qed.

Lemma Fprintln_taken : forall (w : io.Writer) s st,
  (forall taken l, w taken l = None) ->
  Fprintln w s st
  = (None, {| self := self st; sent := sent st;
              written := written st ++ [line s] |}).
Proof. intros w s st Hacc. unfold Fprintln. rewrite Hacc. reflexivity. Qed.

(** X10: with tracing on and a writer that takes what it is given, a call
    that gets as far as sending writes the dump of the request and an empty
    line, and then, when the HTTP client has answered, what it prints for
    the response (its dump, nothing when the dump fails) and an empty line;
    each is one line written to the debug output, after what was there. *)
Theorem traced_lines :
  forall (P : Platform) (method URL data : string) (st : State)
         (w : io.Writer) (req : http.Request) (dump : string),
    Client_Debug (self st) = Some w ->
    (forall taken line, w taken line = None) ->
    outgoing P (self st) method URL data = Ok req ->
    httputil_DumpRequestOut P req = Ok dump ->
    written (snd (MakeAPICall P method URL data st))
    = (written st ++ [line dump; line EmptyString]
         ++ match Client_HTTPClient (self st) (sent st) req with
            | Ok resp => [line (printed P resp); line EmptyString]
            | Err _ => []
            end)%list.
Proof.
  intros P method URL data st w req dump Hw Hacc Ho Hd.
  unfold outgoing in Ho.
  unfold MakeAPICall, bind, ret, receiver.
  destruct (http.NewRequest _ _ _ _) as [x|]; [|discriminate].
  set (q := http.Header_Add _ _ _) in *.
  assert (q = req) as -> by congruence. clear Ho.
  rewrite Hw, Hd.
  rewrite (Fprintln_taken w dump st Hacc). cbv beta iota.
  rewrite (Fprintln_taken w EmptyString _ Hacc). cbv beta iota.
  unfold Do. cbn [written sent self].
  destruct (Client_HTTPClient (self st) (sent st) req) as [resp|];
    [|cbn [snd written]; rewrite app_nil_r, <- app_assoc; reflexivity].
  unfold dumpResponse, bind, ret, receiver, printed. cbn [self].
  rewrite Hw.
  destruct (httputil.DumpResponse (Response_Write P) resp) as [resp' dumped].
  rewrite (Fprintln_taken w _ _ Hacc). cbv beta iota.
  rewrite (Fprintln_taken w EmptyString _ Hacc). cbv beta iota.
  cbn [written sent self snd].
  destruct (ioutil.ReadAll _) as [res [err|]]; cbn [snd written];
    rewrite <- !app_assoc; reflexivity.
Qed.

(** X11: a client made by NewClient has tracing off and sends to the URL in
    the environment variable CHECKLY_API_URL when it is set, be it to the
    empty string, and to https://api.checklyhq.com when it is not: an
    operation of such a client writes nothing to the debug output, and a
    request it issues goes to that base URL, "/v1/" and the path of the
    operation, with the API key given as bearer token. *)
Theorem NewClient_requests :
  forall (P : Platform) (apiKey : string) (k : Call) (req : http.Request),
    let st := start (NewClient P apiKey) in
    let base := match os_LookupEnv P "CHECKLY_API_URL" with
                | Some value => value
                | None => "https://api.checklyhq.com"
                end in
    written (call P k st) = []
    /\ (sent (call P k st) = [req] ->
        http.Request_URL req = base ++ "/v1/" ++ path_of k
        /\ In ("Authorization", "Bearer " ++ apiKey) (http.Request_Header req)).
Proof.
  intros P apiKey k req st base. split.
  - rewrite call_state. destruct (payload_of P k); [|reflexivity].
    apply MakeAPICall_untraced. reflexivity.
  - rewrite call_state.
    destruct (payload_of P k) as [data|]; [|discriminate].
    destruct (MakeAPICall_sent_cases P (method_of k) (path_of k) data st)
      as [Hsame | [req' [Ho Hone]]]; intros Hs.
    + rewrite Hsame in Hs. discriminate.
    + rewrite Hone in Hs. injection Hs as ->.
      destruct (outgoing_shape P _ _ _ _ _ Ho (method_of_set k))
        as [_ [Hu [_ Hh]]].
      split; [exact Hu|]. rewrite Hh. left. reflexivity.
Qed.

(** X12: over any sequence of calls the requests sent before stay as they
    are, at most one request is added per call, and every request added is
    that of one of the calls: its method, and as URL the client's base URL,
    "/v1/" and its path. *)
Theorem calls_requests :
  forall (P : Platform) (ks : list Call) (st : State),
  exists added,
    sent (calls P ks st) = (sent st ++ added)%list
    /\ (List.length added <= List.length ks)%nat
    /\ Forall
         (fun req =>
            exists k,
              In k ks
              /\ http.Request_Method req = method_of k
              /\ http.Request_URL req
                 = Client_URL (self st) ++ "/v1/" ++ path_of k)
         added.
Proof.
  intros P ks. unfold calls.
  induction ks as [|k ks IH]; intros st.
  - exists []. cbn. rewrite app_nil_r. auto.
  - cbn [fold_left].
    destruct (IH (call P k st)) as [added [Hs [Hl Hall]]].
    rewrite call_self in Hall.
    assert (Hk : sent (call P k st) = sent st
                 \/ exists req,
                      sent (call P k st) = (sent st ++ [req])%list
                      /\ http.Request_Method req = method_of k
                      /\ http.Request_URL req
                         = Client_URL (self st) ++ "/v1/" ++ path_of k).
    { rewrite call_state.
      destruct (payload_of P k) as [data|]; [|left; reflexivity].
      destruct (MakeAPICall_sent_cases P (method_of k) (path_of k) data st)
        as [Hsame | [req [Ho Hone]]]; [left; assumption|].
      right. exists req.
      destruct (outgoing_shape P _ _ _ _ _ Ho (method_of_set k))
        as [Hm [Hu _]]. auto. }
    assert (Hrest : Forall
              (fun req =>
                 exists k0,
                   In k0 (k :: ks)
                   /\ http.Request_Method req = method_of k0
                   /\ http.Request_URL req
                      = Client_URL (self st) ++ "/v1/" ++ path_of k0)
              added).
    { eapply Forall_impl; [|exact Hall].
      intros req [k0 [Hin H]]. exists k0. split; [right; assumption | exact H]. }
    destruct Hk as [Hsame | [req [Hone [Hm Hu]]]].
    + exists added. rewrite Hs, Hsame. cbn [List.length].
      split; [reflexivity|]. split; [lia | exact Hrest].
    + exists (req :: added). rewrite Hs, Hone, <- app_assoc. cbn [app List.length].
      split; [reflexivity|]. split; [lia|].
      constructor; [|exact Hrest].
      exists k. split; [left; reflexivity | auto].
Qed.

(** The encoder fails on a struct exactly when it fails on one of the fields
    it does not drop. *)
Lemma encode_fields_ok : forall (S : Type) (fs : list (json.field S)) (s : S),
  is_ok (json.encode_fields fs s)
  = forallb (fun f => (json.omitEmpty f && json.fempty f s)
                      || is_ok (json.fenc f s)) fs.
Proof.
  intros S fs s. induction fs as [|f fs IH]; [reflexivity|].
  cbn [json.encode_fields forallb]. rewrite <- IH.
  destruct (json.omitEmpty f && json.fempty f s); [reflexivity|].
  destruct (json.fenc f s); [|reflexivity].
  destruct (json.encode_fields fs s); reflexivity.
Qed.

Lemma enc_struct_ok :
  forall (S : Type) name (fields : list (json.field S)) zero build (s : S),
    is_ok (json.enc (json.struct_ name fields zero build) s)
    = forallb (fun f => (json.omitEmpty f && json.fempty f s)
                        || is_ok (json.fenc f s)) fields.
Proof.
  intros. rewrite enc_struct, <- encode_fields_ok.
  destruct (json.encode_fields fields s); reflexivity.
Qed.

Lemma enc_slice_ok : forall (T : Type) (c : json.codec T),
  (forall x, is_ok (json.enc c x) = true) ->
  forall s, is_ok (json.enc (json.slice_ c) s) = true.
Proof.
  intros T c Hc [l|]; [|reflexivity]. cbn [json.enc json.slice_].
  assert (H : is_ok (json.enc_elems c l) = true).
  { induction l as [|x l IH]; [reflexivity|]. cbn [json.enc_elems].
    specialize (Hc x). destruct (json.enc c x); [|discriminate].
    destruct (json.enc_elems c l); [reflexivity | discriminate]. }
  destruct (json.enc_elems c l); [reflexivity | discriminate].
Qed.

Lemma enc_string_ok : forall s, is_ok (json.enc json.string_ s) = true.
Proof. reflexivity. Qed.

Lemma enc_int_ok : forall t n, is_ok (json.enc (json.integer t) n) = true.
Proof. reflexivity. Qed.

Lemma enc_bool_ok : forall b, is_ok (json.enc json.bool_ b) = true.
Proof. reflexivity. Qed.

Lemma enc_time_ok : forall layoutParse t,
  is_ok (json.enc (json.Time_ layoutParse) t) = encodable t.
Proof.
  intros layoutParse t. cbn [json.enc json.Time_].
  unfold time.MarshalJSON, encodable.
  destruct (time.Year t <? 0) eqn:Hlo; destruct (9999 <? time.Year t) eqn:Hhi;
    destruct (24 <=? Z.abs (Z.quot (time.Offset t) 60) / 60) eqn:Hz;
    cbn [orb is_ok]; symmetry;
    repeat match goal with
           | H : (_ <? _) = _ |- _ =>
               first [apply Z.ltb_lt in H | apply Z.ltb_ge in H]
           | H : (_ <=? _) = _ |- _ =>
               first [apply Z.leb_le in H | apply Z.leb_gt in H]
           end;
    first [ apply andb_true_iff; split;
            [apply andb_true_iff; split; [apply Z.leb_le | apply Z.leb_le]
            | apply Z.ltb_lt]; lia
          | apply andb_false_iff;
            first [ right; apply Z.ltb_ge; lia
                  | left; apply andb_false_iff;
                    first [left; apply Z.leb_gt; lia
                          | right; apply Z.leb_gt; lia] ] ].
Qed.

Ltac fields_ok :=
  intros; rewrite enc_struct_ok;
  cbn [forallb json.fld json.fld_omitempty json.omitEmpty json.fempty
       json.fenc andb];
  unfold json.int_, json.int64_;
  rewrite ?enc_string_ok, ?enc_int_ok, ?enc_bool_ok, ?orb_true_r;
  reflexivity.

Lemma enc_KeyValue_ok : forall x, is_ok (json.enc json_KeyValue x) = true.
Proof. unfold json_KeyValue. fields_ok. Qed.

Lemma enc_EnvironmentVariable_ok : forall x,
  is_ok (json.enc json_EnvironmentVariable x) = true.
Proof. unfold json_EnvironmentVariable. fields_ok. Qed.

Lemma enc_BasicAuth_ok : forall x, is_ok (json.enc json_BasicAuth x) = true.
Proof. unfold json_BasicAuth. fields_ok. Qed.

Lemma enc_Assertion_ok : forall x, is_ok (json.enc json_Assertion x) = true.
Proof. unfold json_Assertion. fields_ok. Qed.

Lemma enc_Subscription_ok : forall x,
  is_ok (json.enc json_Subscription x) = true.
Proof. unfold json_Subscription. fields_ok. Qed.

Lemma enc_RunBasedEscalation_ok : forall x,
  is_ok (json.enc json_RunBasedEscalation x) = true.
Proof. unfold json_RunBasedEscalation. fields_ok. Qed.

Lemma enc_TimeBasedEscalation_ok : forall x,
  is_ok (json.enc json_TimeBasedEscalation x) = true.
Proof. unfold json_TimeBasedEscalation. fields_ok. Qed.

Lemma enc_Reminders_ok : forall x, is_ok (json.enc json_Reminders x) = true.
Proof. unfold json_Reminders. fields_ok. Qed.

Lemma enc_SSLCertificates_ok : forall x,
  is_ok (json.enc json_SSLCertificates x) = true.
Proof. unfold json_SSLCertificates. fields_ok. Qed.

Lemma enc_AlertSettings_ok : forall x,
  is_ok (json.enc json_AlertSettings x) = true.
Proof.
  intros. unfold json_AlertSettings. rewrite enc_struct_ok.
  cbn [forallb json.fld json.fld_omitempty json.omitEmpty json.fempty
       json.fenc andb].
  rewrite enc_string_ok, enc_RunBasedEscalation_ok,
    enc_TimeBasedEscalation_ok, enc_Reminders_ok, enc_SSLCertificates_ok,
    ?orb_true_r.
  reflexivity.
Qed.

Lemma enc_Request_ok : forall x, is_ok (json.enc json_Request x) = true.
Proof.
  intros. unfold json_Request. rewrite enc_struct_ok.
  cbn [forallb json.fld json.fld_omitempty json.omitEmpty json.fempty
       json.fenc andb].
  rewrite ?enc_string_ok, ?enc_bool_ok, enc_BasicAuth_ok,
    !(enc_slice_ok _ json_KeyValue enc_KeyValue_ok),
    (enc_slice_ok _ json_Assertion enc_Assertion_ok), ?orb_true_r.
  reflexivity.
Qed.

(** X13: encoding a Check for Create or Update fails exactly when its
    CreatedAt or its UpdatedAt cannot be written as an RFC 3339 timestamp
    (a year outside 0..9999, or a zone a day or more off UTC); no other
    field can make it fail. *)
Theorem Marshal_fails_on_timestamps_only :
  forall (P : Platform) (check : Check),
    is_ok (json.Marshal (Check_json P) check)
    = encodable (Check_CreatedAt check) && encodable (Check_UpdatedAt check).
Proof.
  intros P check. unfold json.Marshal.
  transitivity (is_ok (json.enc (Check_json P) check)).
  { destruct (json.enc (Check_json P) check); reflexivity. }
  unfold Check_json, json_Check. rewrite enc_struct_ok.
  cbn [forallb json.fld json.fld_omitempty json.omitEmpty json.fempty
       json.fenc andb].
  unfold json.int_, json.int64_.
  rewrite ?enc_string_ok, ?enc_int_ok, ?enc_bool_ok, !enc_time_ok,
    enc_AlertSettings_ok, enc_Request_ok,
    !(enc_slice_ok _ json.string_ enc_string_ok),
    (enc_slice_ok _ json_EnvironmentVariable enc_EnvironmentVariable_ok),
    (enc_slice_ok _ json_Subscription enc_Subscription_ok), ?orb_true_r.
  cbn [json.isEmptyValue json.Time_ andb orb].
  rewrite andb_true_r. reflexivity.
Qed.

(** A key that reads like no field stands for none. *)
Lemma resolve_unknown : forall keys key,
  (forall n, In n keys -> keyed n key = false) ->
  json.resolve keys (json.unquote key) = None.
Proof.
  intros keys key H. unfold json.resolve, keyed in *.
  set (k := json.unquote key) in *.
  destruct (find (String.eqb k) keys) as [m|] eqn:Hexact.
  - apply find_some in Hexact as [Hm Heq]. apply String.eqb_eq in Heq.
    subst m. specialize (H k Hm). rewrite String.eqb_refl in H.
    discriminate.
  - destruct (find (fun n => String.eqb (json.foldName n) (json.foldName k))
                keys) as [m|] eqn:Hfold; [|reflexivity].
    apply find_some in Hfold as [Hm Heq]. rewrite String.eqb_sym in Heq.
    rewrite (H m Hm) in Heq. discriminate.
Qed.

(** A member whose key stands for no field leaves every field as it is. *)
Lemma into_skip : forall (T : Type) (c : json.codec T) keys n ms1 m ms2 old,
  json.resolve keys (json.unquote (fst m)) = None ->
  json.into keys (ms1 ++ m :: ms2) n c old
  = json.into keys (ms1 ++ ms2) n c old.
Proof.
  intros T c keys n ms1 m ms2 old H. unfold json.into.
  rewrite !fold_left_app. cbn [fold_left]. rewrite H. reflexivity.
Qed.

(** Such a member is no error either. *)
Lemma check_skip :
  forall layoutParse name fields Struct Field ms1 k v ms2 saved,
    json.resolve (map fst fields) (json.unquote k) = None ->
    json.check layoutParse (json.struct_t name fields) Struct Field
      (json.JObject (ms1 ++ (k, v) :: ms2)) saved
    = json.check layoutParse (json.struct_t name fields) Struct Field
        (json.JObject (ms1 ++ ms2)) saved.
Proof.
  intros layoutParse name fields Struct Field ms1 k v ms2 saved H.
  cbn [json.check]. revert saved.
  induction ms1 as [|[k1 v1] ms1 IH]; intros saved.
  - cbn [app]. rewrite H. reflexivity.
  - cbn [app].
    destruct (json.resolve (map fst fields) (json.unquote k1)) as [n|];
      [|apply IH].
    destruct (json.lookup n fields) as [ft|]; [|apply IH].
    destruct (json.check layoutParse ft name (json.path Field n) v1 saved);
      [apply IH | reflexivity].
Qed.

(** X14: a member of the body whose key reads like no field of Check,
    letter case aside, changes nothing in what decoding gives: the same
    Check, or the same error. *)
Theorem Decode_ignores_unknown_members :
  forall (layoutParse : string -> result time.Time) (text text' : string)
         (ms1 ms2 : list (string * json.value)) (k : string)
         (v : json.value) (target : Check),
    (forall n, In n Check_keys -> keyed n k = false) ->
    json.readValue text = Ok (json.JObject (ms1 ++ (k, v) :: ms2)) ->
    json.readValue text' = Ok (json.JObject (ms1 ++ ms2)) ->
    json.Decode layoutParse (json_Check layoutParse) text target
    = json.Decode layoutParse (json_Check layoutParse) text' target.
Proof.
  intros layoutParse text text' ms1 ms2 k v target Hk Hr Hr'.
  apply resolve_unknown in Hk.
  unfold json.Decode. rewrite Hr, Hr'.
  cbn [json.gotype_of json_Check json.struct_].
  rewrite check_skip; [|exact Hk].
  destruct (json.check _ _ _ _ _ _) as [[e|]|e]; try reflexivity.
  f_equal. cbn [json.dec json_Check json.struct_].
  rewrite !into_skip by exact Hk. reflexivity.
Qed.

(** X15: an empty body is no Check.  When the call of Create, Get or Update
    comes back with the status the operation expects and a body that holds
    nothing but white space, the operation returns the error of decoding it,
    with [io.EOF] as the cause; Delete, which reads no body, returns no
    error. *)
Theorem empty_body :
  forall (P : Platform) (k : Call) (st st' : State) (data res : string),
    payload_of P k = Ok data ->
    MakeAPICall P (method_of k) (path_of k) data st
    = ((expected_status k, res, None), st') ->
    json.skipSpace res = EmptyString ->
    call_error P k st
    = if reads_check k
      then Some (fmt.Errorf "decoding error for data %s: %v"
                   [OString res; OError io_EOF])
      else None.
Proof.
  intros P k st st' data res Hp Hc Hres.
  rewrite call_error_spec, Hp, Hc. cbn [fst]. unfold verdict.
  rewrite Z.eqb_refl. cbn [negb].
  destruct (reads_check k); [|reflexivity].
  unfold json.Decode, json.readValue. rewrite Hres. reflexivity.
Qed.




(** ** The further properties at concrete inputs *)

(** X2 at an Update that the server answers with status 500. *)
Lemma operation_error_witness :
  let st := start (exampleClient api (answering 500 "Internal Server Error")
                     None) in
  call_error examplePlatform (CallUpdate wantID testCheck) st
  = Some (fmt.Errorf "unexpected response status %d: %q"
            [OInt 500; OString "Internal Server Error"]).
Proof.
  intro st.
  apply (proj1 (operation_error examplePlatform (CallUpdate wantID testCheck)
                  st
                  (snd (MakeAPICall examplePlatform http.MethodPut
                          ("checks/" ++ wantID) testWire st))
                  testWire "Internal Server Error" 500
                  ltac:(vm_compute; reflexivity)
                  ltac:(vm_compute; reflexivity))).
  unfold expected_status, http.StatusOK. lia.
Defined.

(** X4 at the exchange of the package's test for Get. *)
Lemma Get_request_url_witness :
  let st := start (exampleClient api (answering 200 createdBody) None) in
  Request_URL (Check_Request (fst (fst (Get examplePlatform wantID st))))
  = "http://example.com".
Proof.
  intro st.
  destruct (Get_request_url examplePlatform wantID st
              (snd (Get examplePlatform wantID st)) createdBody
              (match json.Decode (time_Parse examplePlatform)
                       (Check_json examplePlatform) createdBody
                       (json.zero (Check_json examplePlatform)) with
               | Ok r => r
               | Err _ => json.zero (Check_json examplePlatform)
               end)
              (match json.readValue createdBody with
               | Ok (json.JObject ms) => ms
               | _ => []
               end)
              [("method", json.JString "GET");
               ("url", json.JString "http://example.com")]
              "request" "url" "http://example.com"
              ltac:(vm_compute; reflexivity) ltac:(vm_compute; reflexivity)
              ltac:(vm_compute; reflexivity) ltac:(vm_compute; reflexivity)
              ltac:(vm_compute; reflexivity)) as [HG HU].
  rewrite HG. exact HU.
Defined.

(** X5 at the request of a Create. *)
Lemma issued_request_content_witness :
  let st := start (exampleClient api (answering 201 createdBody) None) in
  let req := {| http.Request_Method := "POST";
                http.Request_URL := "https://api.checklyhq.com/v1/checks";
                http.Request_Header := [("Authorization", "Bearer dummy");
                                        ("Content-Type", "application/json")];
                http.Request_Body := testWire |} in
  http.Request_Header req
  = [("Authorization", "Bearer dummy"); ("Content-Type", "application/json")]
  /\ payload_of examplePlatform (CallCreate testCheck) = Ok testWire.
Proof.
  intros st req.
  apply (issued_request_content examplePlatform (CallCreate testCheck) st req).
  vm_compute; reflexivity.
Defined.

(** X6 at a server that answers 500. *)
Lemma MakeAPICall_answer_witness :
  let st := start (exampleClient api (answering 500 "Internal Server Error")
                     None) in
  fst (MakeAPICall examplePlatform http.MethodGet "checks/1" EmptyString st)
  = (500, "Internal Server Error", None).
Proof.
  intro st.
  apply (proj2 (proj2
           (MakeAPICall_answer examplePlatform http.MethodGet "checks/1"
              EmptyString st
              {| http.Request_Method := "GET";
                 http.Request_URL := "https://api.checklyhq.com/v1/checks/1";
                 http.Request_Header :=
                   [("Authorization", "Bearer dummy");
                    ("Content-Type", "application/json")];
                 http.Request_Body := EmptyString |}
              ltac:(vm_compute; reflexivity)
              ltac:(left; reflexivity)))
           {| http.Response_StatusCode := 500;
              http.Response_Body :=
                {| io.content := "Internal Server Error";
                   io.failure := None |} |});
    reflexivity.
Defined.

(** X8 at a method with a space in it. *)
Lemma MakeAPICall_request_not_built_witness :
  let st := start (exampleClient api (answering 200 createdBody) None) in
  MakeAPICall examplePlatform "GET checks" "checks" EmptyString st
  = ((0, EmptyString,
      Some (fmt.Errorf "failed to create HTTP request: %v"
              [OError (fmt.Errorf "net/http: invalid method %q"
                         [OString "GET checks"])])), st).
Proof.
  intro st.
  apply (proj1 (MakeAPICall_request_not_built examplePlatform "GET checks"
                  "checks" EmptyString st)).
  - discriminate.
  - reflexivity.
Defined.

(** X9 at a Create followed by a Delete. *)
Lemma untraced_writes_nothing_witness :
  let st := start (exampleClient api (answering 201 createdBody) None) in
  written (calls examplePlatform [CallCreate testCheck; CallDelete wantID] st)
  = [].
Proof.
  intro st.
  apply (untraced_writes_nothing examplePlatform
           [CallCreate testCheck; CallDelete wantID] st).
  reflexivity.
Defined.

(** X10 at a Delete that is answered 204. *)
Lemma traced_lines_witness :
  let st := start (exampleClient api (answering 204 EmptyString)
                     (Some stdout)) in
  written (snd (MakeAPICall examplePlatform http.MethodDelete "checks/1"
                  EmptyString st))
  = [line (String.append "DELETE https://api.checklyhq.com/v1/checks/1"
             newline);
     line EmptyString;
     line (String.append "HTTP/1.1 204" newline);
     line EmptyString].
Proof.
  intro st.
  apply (traced_lines examplePlatform http.MethodDelete "checks/1" EmptyString
           st stdout
           {| http.Request_Method := "DELETE";
              http.Request_URL := "https://api.checklyhq.com/v1/checks/1";
              http.Request_Header := [("Authorization", "Bearer dummy");
                                      ("Content-Type", "application/json")];
              http.Request_Body := EmptyString |}
           (String.append "DELETE https://api.checklyhq.com/v1/checks/1"
              newline)).
  - reflexivity.
  - reflexivity.
  - vm_compute; reflexivity.
  - vm_compute; reflexivity.
Defined.

(** X14 at a body with a [links] member. *)
Lemma Decode_ignores_unknown_members_witness :
  json.Decode (time_Parse examplePlatform) (Check_json examplePlatform)
    linkedBody (json.zero (Check_json examplePlatform))
  = json.Decode (time_Parse examplePlatform) (Check_json examplePlatform)
      plainBody (json.zero (Check_json examplePlatform)).
Proof.
  apply (Decode_ignores_unknown_members (time_Parse examplePlatform)
           linkedBody plainBody
           [("id", json.JString "abc")]
           [("name", json.JString "test")]
           "links"
           (json.JObject [("self", json.JString "/v1/checks/abc")])).
  - intros n Hin. unfold Check_keys in Hin. cbn [In] in Hin.
    repeat (destruct Hin as [<- | Hin]; [reflexivity|]). contradiction.
  - vm_compute; reflexivity.
  - vm_compute; reflexivity.
Defined.

(** X15 at a Get that is answered 200 with nothing but a line feed. *)
Lemma empty_body_witness :
  let st := start (exampleClient api (answering 200 newline) None) in
  call_error examplePlatform (CallGet wantID) st
  = Some (fmt.Errorf "decoding error for data %s: %v"
            [OString newline; OError io_EOF]).
Proof.
  intro st.
  apply (empty_body examplePlatform (CallGet wantID) st
           (snd (Get examplePlatform wantID st)) EmptyString newline).
  - reflexivity.
  - vm_compute; reflexivity.
  - reflexivity.
Defined.

